(** * NMT_BERT: the fused BERT/transformer translation model

    A shallow embedding of [model/fused.py], [run.py] ([load_model]) and
    [modules/data.py] ([load_dataloader]), and the properties of the
    specification checked against it.

    Conventions of the embedding.
    - A tensor is a shape together with an index function; the tensor
      operations the source calls ([unsqueeze], [triu], [&] with
      broadcasting, slicing, item assignment, [view], [argmax]) are
      written out once in [Module Torch].
    - Python exceptions are the constructors of [exn]; code that can raise
      lives in the error monad [result].
    - Hidden states are values of a type with the arithmetic of the
      class [Hidden]: its instances are the exact rationals [Qc] (floats
      idealised) and the single precision floats of [Module Float32],
      the dtype of the tensors of the code.
    - The modules imported from [model.simple], [torch] and
      [transformers] ([MultiHeadAttention], [PositionwiseFeedForward],
      [LayerNorm], [Embeddings], [nn.Linear], [nn.Dropout], the pretrained
      encoder) are fields of the records that hold them: arbitrary
      functions.  The [dropout] of a record is one function: the
      identity of evaluation mode, or one drawn mask with its rescaling;
      two draws of one module within a pass are not modelled. *)

From Stdlib Require Import ZArith QArith Qcanon Lia Bool.
From Stdlib Require Import Floats.SpecFloat.
From stdpp Require Import base gmap strings list fin_maps.

Local Open Scope Z_scope.

(** ** Exceptions and the error monad *)

Inductive exn : Type :=
| TypeError
| IndexError
| AttributeError
| AssertionError
| KeyError
| RuntimeError
| ValueError
| NameError
| FileNotFoundError
| UnboundLocalError.

Inductive result (A : Type) : Type :=
| Ok (a : A)
| Raise (e : exn).

Arguments Ok {A} a.
Arguments Raise {A} e.

#[global] Instance result_ret : MRet result := fun A a => Ok a.
#[global] Instance result_bind : MBind result := fun A B k r =>
  match r with
  | Ok a => k a
  | Raise e => Raise e
  end.

#[global] Instance result_fmap : FMap result := fun A B f r =>
  match r with
  | Ok a => Ok (f a)
  | Raise e => Raise e
  end.

Definition raises {A} (r : result A) : Prop := exists e, r = Raise e.

(** ** Tensors *)

Module Torch.

Record tensor (A : Type) : Type := Tensor {
  shape : list nat;
  at_ : list nat -> A
}.
Arguments Tensor {A} shape at_.
Arguments shape {A} t.
Arguments at_ {A} t idx.

Definition numel {A} (t : tensor A) : nat := foldr Nat.mul 1%nat (shape t).

(** [x.size(-1)] : the last dimension; a 0-d tensor has none. *)
Definition size_last {A} (t : tensor A) : result nat :=
  match last (shape t) with
  | Some n => Ok n
  | None => Raise IndexError
  end.

(** [x.size(0)] *)
Definition size0 {A} (t : tensor A) : result nat :=
  match shape t with
  | n :: _ => Ok n
  | [] => Raise IndexError
  end.

(** [torch.ones(shape)], [torch.zeros(shape)], [t.new_zeros(shape)] *)
Definition full {A} (sh : list nat) (a : A) : tensor A :=
  Tensor sh (fun _ => a).
Definition ones (sh : list nat) : tensor Z := full sh 1.
Definition zeros (sh : list nat) : tensor Z := full sh 0.

(** Elementwise map: [t != c], [t == c], [.type(...)]. *)
Definition tmap {A B} (f : A -> B) (t : tensor A) : tensor B :=
  Tensor (shape t) (fun idx => f (at_ t idx)).
Definition ne_scalar (t : tensor Z) (c : Z) : tensor bool :=
  tmap (fun v => negb (v =? c)) t.
Definition eq_scalar (t : tensor Z) (c : Z) : tensor bool :=
  tmap (fun v => v =? c) t.

(** [t.unsqueeze(d)] for [0 <= d <= rank t]: a dimension of size one is
    inserted at [d]; the index at [d] is dropped when reading. *)
Definition unsqueeze {A} (d : nat) (t : tensor A) : result (tensor A) :=
  if (d <=? length (shape t))%nat
  then Ok (Tensor (take d (shape t) ++ 1%nat :: drop d (shape t))
                  (fun idx => at_ t (take d idx ++ drop (S d) idx)))
  else Raise IndexError.

(** [torch.triu(t, diagonal=k)]: on the last two dimensions, entries
    with [col - row < k] are zeroed. *)
Definition triu (t : tensor Z) (k : Z) : result (tensor Z) :=
  if (2 <=? length (shape t))%nat
  then Ok (Tensor (shape t)
             (fun idx =>
                match reverse idx with
                | j :: i :: _ =>
                    if (Z.of_nat j - Z.of_nat i <? k) then 0 else at_ t idx
                | _ => 0
                end))
  else Raise RuntimeError.

(** Broadcasting of two shapes, aligned at the right. *)
Fixpoint bshape_rev (s1 s2 : list nat) : option (list nat) :=
  match s1, s2 with
  | [], s | s, [] => Some s
  | a :: s1', b :: s2' =>
      r ← bshape_rev s1' s2';
      if (a =? b)%nat then Some (a :: r)
      else if (a =? 1)%nat then Some (b :: r)
      else if (b =? 1)%nat then Some (a :: r)
      else None
  end.
Definition broadcast_shapes (s1 s2 : list nat) : option (list nat) :=
  reverse <$> bshape_rev (reverse s1) (reverse s2).

(** The index into an operand of shape [sh] that an index [idx] of the
    broadcast result reads: right-aligned, and [0] where the operand's
    dimension has size one. *)
Definition bindex (sh idx : list nat) : list nat :=
  zip_with (fun n i => if (n =? 1)%nat then 0%nat else i)
           sh (drop (length idx - length sh) idx).

Definition zip_bcast {A B C} (f : A -> B -> C) (a : tensor A) (b : tensor B)
  : result (tensor C) :=
  match broadcast_shapes (shape a) (shape b) with
  | Some sh =>
      Ok (Tensor sh (fun idx => f (at_ a (bindex (shape a) idx))
                                  (at_ b (bindex (shape b) idx))))
  | None => Raise RuntimeError
  end.

(** [a & b] on boolean tensors. *)
Definition band (a b : tensor bool) : result (tensor bool) :=
  zip_bcast andb a b.

(** [t[:, :-1]]: all but the last index of dimension 1. *)
Definition cols_init {A} (t : tensor A) : result (tensor A) :=
  match shape t with
  | b :: l :: rest => Ok (Tensor (b :: (l - 1)%nat :: rest) (at_ t))
  | _ => Raise IndexError
  end.

(** [t[:, 1:]]: all but the first index of dimension 1. *)
Definition cols_tail {A} (t : tensor A) : result (tensor A) :=
  match shape t with
  | b :: l :: rest =>
      Ok (Tensor (b :: (l - 1)%nat :: rest)
            (fun idx => match idx with
                        | i :: j :: r => at_ t (i :: S j :: r)
                        | _ => at_ t idx
                        end))
  | _ => Raise IndexError
  end.

(** [dst[:, 1:] = src]: the source must broadcast to the shape of the
    slice. *)
Definition set_cols_tail {A} (dst src : tensor A) : result (tensor A) :=
  match shape dst with
  | b :: l :: rest =>
      let slice := b :: (l - 1)%nat :: rest in
      if decide (broadcast_shapes slice (shape src) = Some slice
                 /\ (length (shape src) <= length slice)%nat)
      then Ok (Tensor (shape dst)
                 (fun idx => match idx with
                             | i :: S j :: r =>
                                 at_ src (bindex (shape src) (i :: j :: r))
                             | _ => at_ dst idx
                             end))
      else Raise RuntimeError
  | _ => Raise IndexError
  end.

(** [dst[:, 0] = v] for a scalar [v]: index 0 must exist in dimension 1. *)
Definition set_col0 {A} (dst : tensor A) (v : A) : result (tensor A) :=
  match shape dst with
  | b :: l :: rest =>
      if (l =? 0)%nat then Raise IndexError
      else Ok (Tensor (shape dst)
                 (fun idx => match idx with
                             | i :: O :: r => v
                             | _ => at_ dst idx
                             end))
  | _ => Raise IndexError
  end.

(** Row [b] of a two-dimensional tensor, and [t.tolist()]. *)
Definition row {A} (t : tensor A) (b : nat) : list A :=
  match shape t with
  | [_; l] => (fun j => at_ t [b; j]) <$> seq 0 l
  | _ => []
  end.
Definition tolist2 {A} (t : tensor A) : list (list A) :=
  match shape t with
  | [n; _] => row t <$> seq 0 n
  | _ => []
  end.

(** A two-dimensional tensor from its rows (of common length [l]). *)
Definition of_rows {A} (d : A) (l : nat) (rows : list (list A)) : tensor A :=
  Tensor [length rows; l]
    (fun idx => match idx with
                | [b; j] => nth j (nth b rows []) d
                | _ => d
                end).

(** All indices of a shape, in row-major order, and the sum of the
    entries ([t.sum()]). *)
Fixpoint indices (sh : list nat) : list (list nat) :=
  match sh with
  | [] => [[]]
  | n :: sh' => flat_map (fun i => cons i <$> indices sh') (seq 0 n)
  end.
Definition elements {A} (t : tensor A) : list A := at_ t <$> indices (shape t).
Definition tsum (t : tensor Z) : Z := foldr Z.add 0 (elements t).

(** Row-major position of an index, and back. *)
Definition ravel (sh idx : list nat) : nat :=
  foldl (fun acc ni => (acc * ni.1 + ni.2)%nat) 0%nat (zip sh idx).
Fixpoint unravel (sh : list nat) (k : nat) : list nat :=
  match sh with
  | [] => []
  | _ :: sh' =>
      let m := foldr Nat.mul 1%nat sh' in
      (k / m)%nat :: unravel sh' (k mod m)%nat
  end.

(** [t.view(-1, v)] and [t.view(-1)], in row-major order (strides are
    not modelled: every tensor is read as contiguous). *)
Definition view_rows {A} (t : tensor A) (v : nat) : result (tensor A) :=
  if (v =? 0)%nat then Raise RuntimeError
  else if (numel t mod v =? 0)%nat
  then let sh := [(numel t / v)%nat; v] in
       Ok (Tensor sh (fun idx => at_ t (unravel (shape t) (ravel sh idx))))
  else Raise RuntimeError.
Definition view_flat {A} (t : tensor A) : tensor A :=
  let sh := [numel t] in
  Tensor sh (fun idx => at_ t (unravel (shape t) (ravel sh idx))).

(** [t.argmax(-1)]: the index of the first maximal entry along the last
    dimension. *)
Fixpoint argmax_from (best : nat) (bv : Qc) (i : nat) (l : list Qc) : nat :=
  match l with
  | [] => best
  | v :: l' =>
      match Qccompare bv v with
      | Lt => argmax_from i v (S i) l'
      | _ => argmax_from best bv (S i) l'
      end
  end.
Definition argmax_list (l : list Qc) : nat :=
  match l with
  | [] => 0%nat
  | v :: l' => argmax_from 0%nat v 1%nat l'
  end.
Definition argmax_last (t : tensor Qc) : result (tensor Z) :=
  match reverse (shape t) with
  | v :: rsh =>
      if (v =? 0)%nat then Raise IndexError
      else Ok (Tensor (reverse rsh)
                 (fun idx => Z.of_nat
                    (argmax_list ((fun k => at_ t (idx ++ [k])) <$> seq 0 v))))
  | [] => Ok (Tensor [] (fun _ => 0))
  end.

(** [dst[i] = src]: [i] must index dimension 0; leading dimensions of
    size one of the source are dropped, and what is left must broadcast
    to the shape of [dst[i]]. *)
Fixpoint strip1 (sh : list nat) : list nat :=
  match sh with
  | 1%nat :: sh' => strip1 sh'
  | _ => sh
  end.
Definition set_item0 {A} (dst : tensor A) (i : nat) (src : tensor A)
  : result (tensor A) :=
  match shape dst with
  | n :: target =>
      if (i <? n)%nat then
        let sv := strip1 (shape src) in
        if decide (broadcast_shapes target sv = Some target
                   /\ (length sv <= length target)%nat)
        then Ok (Tensor (shape dst)
                   (fun idx =>
                      match idx with
                      | k :: r =>
                          if (k =? i)%nat
                          then at_ src (replicate (length (shape src) - length sv) 0%nat
                                        ++ bindex sv r)
                          else at_ dst idx
                      | [] => at_ dst idx
                      end))
        else Raise RuntimeError
      else Raise IndexError
  | [] => Raise IndexError
  end.

(** Memory layout.  The strides of a contiguous tensor of a given shape,
    and the sizes and strides of the slice [t[:, 1:]] of such a tensor:
    the slice keeps the strides of [t]. *)
Fixpoint contiguous_strides (sh : list nat) : list nat :=
  match sh with
  | [] => []
  | _ :: sh' => foldr Nat.mul 1%nat sh' :: contiguous_strides sh'
  end.

Definition cols_tail_layout (sh : list nat) : list (nat * nat) :=
  match sh with
  | b :: l :: rest => zip (b :: (l - 1)%nat :: rest) (contiguous_strides sh)
  | _ => []
  end.

(** [view(-1)] is possible without a copy when the tensor is empty or
    its dimensions of size other than one form a single chunk: each
    stride is the size times the stride of the next such dimension. *)
Fixpoint one_chunk (dims : list (nat * nat)) : bool :=
  match dims with
  | (_, stride1) :: dims' =>
      match dims' with
      | (size2, stride2) :: _ => (stride1 =? size2 * stride2)%nat && one_chunk dims'
      | [] => true
      end
  | [] => true
  end.

Definition viewable_flat (layout : list (nat * nat)) : bool :=
  (foldr Nat.mul 1%nat (fst <$> layout) =? 0)%nat
  || one_chunk (List.filter (fun d => negb (fst d =? 1)%nat) layout).

End Torch.
Import Torch.

(** ** Hidden states

    The float tensors that flow between layers, all of the one shape
    (batch, seq_len, hidden_dim).  The layers only add them ([hadd]) and
    scale them by the constant [0.5] ([hscale]); what the attention,
    feed-forward, normalisation and embedding modules compute is left to
    those modules.  [hsub] and [hzero] serve to state properties. *)

Class Hidden (H : Type) : Type := {
  hadd : H -> H -> H;
  hscale : H -> Qc -> H;
  hsub : H -> H -> H;
  hzero : H
}.

(** The laws of exact elementwise arithmetic (floats idealised).  The
    floats of the code do not satisfy them: see [Float32]. *)
Class HiddenLaws (H : Type) `{Hidden H} : Prop := {
  hadd_comm : forall a b : H, hadd a b = hadd b a;
  hadd_assoc : forall a b c : H, hadd a (hadd b c) = hadd (hadd a b) c;
  hadd_zero : forall a : H, hadd a hzero = a;
  hsub_add : forall a b : H, hsub (hadd a b) a = b;
  hscale_zero : forall c : Qc, hscale hzero c = hzero
}.

Declare Scope hidden_scope.
Delimit Scope hidden_scope with H.
Infix "+" := hadd : hidden_scope.
Infix "-" := hsub : hidden_scope.
Infix "*" := hscale : hidden_scope.

(** The literal [0.5] of the source. *)
Definition half : Qc := Q2Qc 0.5%Q.

(** Scalars (a 0-d tensor) and pairs are hidden states; so is every tuple
    of rationals. *)
#[global] Instance Qc_Hidden : Hidden Qc := {
  hadd := Qcplus;
  hscale := Qcmult;
  hsub := Qcminus;
  hzero := Q2Qc 0
}.

#[global] Instance prod_Hidden {A B} `{Hidden A} `{Hidden B} : Hidden (A * B) := {
  hadd x y := (hadd x.1 y.1, hadd x.2 y.2);
  hscale x c := (hscale x.1 c, hscale x.2 c);
  hsub x y := (hsub x.1 y.1, hsub x.2 y.2);
  hzero := (hzero, hzero)
}.

(** ** Single precision

    [torch]'s default dtype: IEEE 754 binary32, 24 bits of precision,
    round to nearest even, as the Standard Library's [SpecFloat] computes
    it.  A hidden state of one element is one such float; [x * 0.5]
    multiplies by the float of the literal. *)

Module Float32.
Definition prec : Z := 24.
Definition emax : Z := 128.

Definition of_Z (z : Z) : spec_float := binary_normalize prec emax z 0 false.

(** The float of a literal [n / d] whose numerator and denominator are
    floats themselves. *)
Definition of_Qc (q : Qc) : spec_float :=
  SFdiv prec emax (of_Z (Qnum q)) (of_Z (Zpos (Qden q))).

Definition add : spec_float -> spec_float -> spec_float := SFadd prec emax.
Definition sub : spec_float -> spec_float -> spec_float := SFsub prec emax.
Definition mul : spec_float -> spec_float -> spec_float := SFmul prec emax.
End Float32.

#[global] Instance float32_Hidden : Hidden spec_float := {
  hadd := Float32.add;
  hscale x c := Float32.mul x (Float32.of_Qc c);
  hsub := Float32.sub;
  hzero := S754_zero false
}.

(** ** Masks and call arguments *)

(** What the source passes in a mask position: a boolean tensor, or (see
    [FusedModel.forward]) a Python tuple. *)
Inductive mask_value : Type :=
| MTensor (t : tensor bool)
| MTuple (items : list (tensor bool)).

Definition MultiHeadAttention (H : Type) : Type := H -> H -> H -> mask_value -> H.

(** The positional arguments of a call of [Encoder] or [Decoder]. *)
Inductive arg (H : Type) : Type :=
| AIds (t : tensor Z)
| AHidden (h : H)
| AMask (m : mask_value).
Arguments AIds {H} t.
Arguments AHidden {H} h.
Arguments AMask {H} m.

(** ** class Sublayer *)

Module Sublayer.
Record t (H : Type) : Type := Make {
  norm : H -> H;
  dropout : H -> H
}.
Arguments Make {H} norm dropout.
Arguments norm {H} _ _.
Arguments dropout {H} _ _.

Definition forward {H} (self : t H) (x : H) (sublayer : H -> H) : H :=
  dropout self (sublayer (norm self x)).
End Sublayer.

(** ** class EncoderLayer *)

Module EncoderLayer.
Record t (H : Type) : Type := Make {
  self_attn : MultiHeadAttention H;
  bert_attn : MultiHeadAttention H;
  pff : H -> H;
  s_sublayer : Sublayer.t H;
  b_sublayer : Sublayer.t H;
  p_sublayer : Sublayer.t H
}.
Arguments Make {H}.
Arguments self_attn {H} _.
Arguments bert_attn {H} _.
Arguments pff {H} _.
Arguments s_sublayer {H} _.
Arguments b_sublayer {H} _.
Arguments p_sublayer {H} _.

Section Forward.
Context {H : Type} `{Hidden H}.
Local Open Scope hidden_scope.

(** The two branches of the first block. *)
Definition branch_b (self : t H) (x : H) (mask : mask_value) (bert_out : H) : H :=
  let b := bert_out in
  Sublayer.forward (b_sublayer self) x (fun x => bert_attn self x b b mask).

Definition branch_s (self : t H) (x : H) (mask : mask_value) : H :=
  Sublayer.forward (s_sublayer self) x (fun x => self_attn self x x x mask).

(** Lines 40-43: the value of [x] after the fusion. *)
Definition fused (self : t H) (x : H) (mask : mask_value) (bert_out : H) : H :=
  let residual := x in
  let b := branch_b self x mask bert_out in
  let s := branch_s self x mask in
  residual + s * half + b * half.

Definition forward (self : t H) (x : H) (mask : mask_value) (bert_out : H) : H :=
  let x := fused self x mask bert_out in
  let residual := x in
  let x := Sublayer.forward (p_sublayer self) x (pff self) in
  residual + x.

End Forward.
End EncoderLayer.

(** ** class DecoderLayer *)

Module DecoderLayer.
Record t (H : Type) : Type := Make {
  self_attn : MultiHeadAttention H;
  bert_attn : MultiHeadAttention H;
  enc_dec_attn : MultiHeadAttention H;
  pff : H -> H;
  s_sublayer : Sublayer.t H;
  b_sublayer : Sublayer.t H;
  e_sublayer : Sublayer.t H;
  p_sublayer : Sublayer.t H
}.
Arguments Make {H}.
Arguments self_attn {H} _.
Arguments bert_attn {H} _.
Arguments enc_dec_attn {H} _.
Arguments pff {H} _.
Arguments s_sublayer {H} _.
Arguments b_sublayer {H} _.
Arguments e_sublayer {H} _.
Arguments p_sublayer {H} _.

Section Forward.
Context {H : Type} `{Hidden H}.
Local Open Scope hidden_scope.

(** Lines 73-75: the self-attention block. *)
Definition after_self (self : t H) (x : H) (d_mask : mask_value) : H :=
  let residual := x in
  let s := Sublayer.forward (s_sublayer self) x
             (fun x => self_attn self x x x d_mask) in
  residual + s.

(** Lines 80 and 81, on the input [x] of the second block. *)
Definition branch_b (self : t H) (x : H) (e_mask : mask_value) (bert_out : H) : H :=
  let b := bert_out in
  Sublayer.forward (b_sublayer self) x (fun x => bert_attn self x b b e_mask).

Definition branch_e (self : t H) (x : H) (e_mask : mask_value) (memory : H) : H :=
  let m := memory in
  Sublayer.forward (b_sublayer self) x (fun x => bert_attn self x m m e_mask).

(** Lines 79-82: the value of [x] after the fusion. *)
Definition fused (self : t H) (x memory : H) (e_mask : mask_value) (bert_out : H) : H :=
  let residual := x in
  let b := branch_b self x e_mask bert_out in
  let e := branch_e self x e_mask memory in
  residual + b * half + e * half.

Definition forward (self : t H) (x memory : H) (e_mask d_mask : mask_value)
    (bert_out : H) : H :=
  let x := after_self self x d_mask in
  let x := fused self x memory e_mask bert_out in
  let residual := x in
  let x := Sublayer.forward (p_sublayer self) x (pff self) in
  residual + x.

(** The encoder-memory branch as the specification words it: the
    layer's encoder-decoder attention under its own wrapper. *)
Definition branch_e_spec (self : t H) (x : H) (e_mask : mask_value) (memory : H) : H :=
  let m := memory in
  Sublayer.forward (e_sublayer self) x (fun x => enc_dec_attn self x m m e_mask).

Definition fused_spec (self : t H) (x memory : H) (e_mask : mask_value) (bert_out : H) : H :=
  let residual := x in
  let b := branch_b self x e_mask bert_out in
  let e := branch_e_spec self x e_mask memory in
  residual + b * half + e * half.
(** The layer with another encoder-decoder attention module and
    another wrapper for it. *)
Definition with_enc_dec (self : t H)
    (attn : MultiHeadAttention H) (wrapper : Sublayer.t H) : t H :=
  Make (self_attn self) (bert_attn self) attn (pff self)
    (s_sublayer self) (b_sublayer self) wrapper (p_sublayer self).
End Forward.
End DecoderLayer.

(** ** class Encoder, class Decoder *)

Module Encoder.
Record t (H : Type) : Type := Make {
  emb : tensor Z -> H;
  norm : H -> H;
  layers : list (EncoderLayer.t H)
}.
Arguments Make {H}.
Arguments emb {H} _.
Arguments norm {H} _.
Arguments layers {H} _.

Section Forward.
Context {H : Type} `{Hidden H}.

Definition forward (self : t H) (x : tensor Z) (mask : mask_value) (bert_out : H) : H :=
  let x := emb self x in
  let x := foldl (fun x layer => EncoderLayer.forward layer x mask bert_out)
                 x (layers self) in
  norm self x.

(** [self.encoder(...)]: the positional arguments are bound to
    [forward]'s parameters [x, mask, bert_out]; any other number of
    them is a TypeError. *)
Definition call (self : t H) (args : list (arg H)) : result H :=
  match args with
  | [AIds x; AMask mask; AHidden bert_out] => Ok (forward self x mask bert_out)
  | _ => Raise TypeError
  end.
End Forward.
End Encoder.

Module Decoder.
Record t (H : Type) : Type := Make {
  emb : tensor Z -> H;
  norm : H -> H;
  layers : list (DecoderLayer.t H)
}.
Arguments Make {H}.
Arguments emb {H} _.
Arguments norm {H} _.
Arguments layers {H} _.

Section Forward.
Context {H : Type} `{Hidden H}.

Definition forward (self : t H) (x : tensor Z) (memory : H)
    (e_mask d_mask : mask_value) (bert_out : H) : H :=
  let x := emb self x in
  let x := foldl (fun x layer =>
                    DecoderLayer.forward layer x memory e_mask d_mask bert_out)
                 x (layers self) in
  norm self x.

(** [self.decoder(...)]: five positional parameters
    [x, memory, e_mask, d_mask, bert_out]. *)
Definition call (self : t H) (args : list (arg H)) : result H :=
  match args with
  | [AIds x; AHidden memory; AMask e_mask; AMask d_mask; AHidden bert_out] =>
      Ok (forward self x memory e_mask d_mask bert_out)
  | _ => Raise TypeError
  end.
End Forward.
End Decoder.

(** ** Python objects: a dictionary of attributes *)

Module Py.
Inductive val : Type :=
| VInt (z : Z)
| VFloat (q : Qc)
| VStr (s : string).

Abbreviation obj := (gmap string val).

Definition getattr (o : obj) (name : string) : result val :=
  match o !! name with
  | Some v => Ok v
  | None => Raise AttributeError
  end.

Definition as_int (v : val) : result Z :=
  match v with VInt z => Ok z | _ => Raise TypeError end.
Definition as_str (v : val) : result string :=
  match v with VStr s => Ok s | _ => Raise TypeError end.

(** [v.upper()]: a method of strings only (the case of the letters is
    of no concern here). *)
Definition upper (v : val) : result val :=
  match v with VStr s => Ok v | _ => Raise AttributeError end.

#[global] Instance val_eq_dec : EqDecision val.
Proof.
  intros x y. unfold Decision.
  decide equality; [apply Z.eq_dec | apply Qc_eq_dec | apply String.string_dec].
Defined.

(** [d[key]] on a dictionary. *)
Definition getitem {A} (d : gmap string A) (key : string) : result A :=
  match d !! key with
  | Some v => Ok v
  | None => Raise KeyError
  end.

(** [s.lower()], on the ASCII letters (the characters of a string are
    bytes here). *)
Definition lower_char (c : Ascii.ascii) : Ascii.ascii :=
  let n := Ascii.nat_of_ascii c in
  if ((65 <=? n) && (n <=? 90))%nat then Ascii.ascii_of_nat (n + 32) else c.

Fixpoint lower (s : string) : string :=
  match s with
  | EmptyString => EmptyString
  | String c s' => String (lower_char c) (lower s')
  end.

(** [l[start:stop]] with optional bounds; a negative bound counts from
    the end, and every bound is clamped to the list. *)
Definition clamp (i : Z) (len : nat) : nat :=
  if i <? 0 then Z.to_nat (Z.max (i + Z.of_nat len) 0)
  else Nat.min (Z.to_nat i) len.

Definition slice {A} (start stop : option Z) (l : list A) : list A :=
  let a := from_option (fun i => clamp i (length l)) 0%nat start in
  let b := from_option (fun i => clamp i (length l)) (length l) stop in
  take (b - a) (drop a l).
End Py.

(** ** nn.CrossEntropyLoss *)

Module CrossEntropyLoss.
(** [cross_entropy] is the functional form: it takes [ignore_index] and
    [label_smoothing] and the two tensors. *)
Record t : Type := Make {
  ignore_index : Z;
  label_smoothing : Qc;
  cross_entropy : Z -> Qc -> tensor Qc -> tensor Z -> Qc
}.

(** For an input of shape (N, C) the target has shape (N). *)
Definition call (self : t) (input : tensor Qc) (target : tensor Z) : result Qc :=
  match shape input, shape target with
  | [n; _], [m] =>
      if (n =? m)%nat
      then Ok (cross_entropy self (ignore_index self) (label_smoothing self)
                 input target)
      else Raise ValueError
  | _, _ => Raise ValueError
  end.
End CrossEntropyLoss.

(** ** class FusedModel *)

Module FusedModel.
(** The submodules [__init__] constructs. *)
Record modules (H : Type) : Type := Modules {
  m_bert : tensor Z -> tensor Z -> H;
  m_encoder : Encoder.t H;
  m_decoder : Decoder.t H;
  m_fc_out : H -> tensor Qc;
  m_cross_entropy : Z -> Qc -> tensor Qc -> tensor Z -> Qc
}.
Arguments Modules {H}.
Arguments m_bert {H} _.
Arguments m_encoder {H} _.
Arguments m_decoder {H} _.
Arguments m_fc_out {H} _.
Arguments m_cross_entropy {H} _.

(** The instance attributes.  [vocab_size] is the attribute of that name
    if some caller has set it; [__init__] assigns no such attribute. *)
Record t (H : Type) : Type := Make {
  pad_id : Z;
  max_len : nat;
  bert : tensor Z -> tensor Z -> H;
  encoder : Encoder.t H;
  decoder : Decoder.t H;
  fc_out : H -> tensor Qc;
  criterion : CrossEntropyLoss.t;
  vocab_size : option nat
}.
Arguments Make {H}.
Arguments pad_id {H} _.
Arguments max_len {H} _.
Arguments bert {H} _.
Arguments encoder {H} _.
Arguments decoder {H} _.
Arguments fc_out {H} _.
Arguments criterion {H} _.
Arguments vocab_size {H} _.

(** The local variables of [forward] after line 187. *)
Record locals (H : Type) : Type := Locals {
  shifted_labels : tensor Z;
  e_mask : mask_value;
  d_mask : tensor bool;
  bert_out : H
}.
Arguments Locals {H}.
Arguments shifted_labels {H} _.
Arguments e_mask {H} _.
Arguments d_mask {H} _.
Arguments bert_out {H} _.

(** What a step of the generation loop decides. *)
Inductive loop_ctl : Type :=
| Break
| Continue (preds : tensor Z).

Section Methods.
Context {H : Type} `{Hidden H}.

(** [__init__]: the attributes of [config] it (and the constructors of
    the layers in this file) read, in order. *)
Definition init (config : Py.obj) (mods : modules H) : result (t H) :=
  _ ← Py.getattr config "device";
  pad ← Py.getattr config "pad_id" ≫= Py.as_int;
  len ← Py.getattr config "max_len" ≫= Py.as_int;
  _ ← Py.getattr config "bert_mname";
  _ ← Py.getattr config "hidden_dim";
  _ ← Py.getattr config "dropout_ratio";
  _ ← Py.getattr config "n_layers";
  _ ← Py.getattr config "vocab_size";
  Ok (Make pad (Z.to_nat len) (m_bert mods) (m_encoder mods) (m_decoder mods)
           (m_fc_out mods)
           (CrossEntropyLoss.Make pad (Q2Qc 0.1%Q) (m_cross_entropy mods))
           None).

(** [self.vocab_size] *)
Definition getattr_vocab_size (self : t H) : result nat :=
  match vocab_size self with
  | Some v => Ok v
  | None => Raise AttributeError
  end.

Definition pad_mask (self : t H) (x : tensor Z) : result (tensor bool) :=
  unsqueeze 1 (ne_scalar x (pad_id self)) ≫= unsqueeze 2.

Definition dec_mask (self : t H) (x : tensor Z) : result (tensor bool) :=
  seq_len ← size_last x;
  let attn_shape := [1%nat; seq_len; seq_len] in
  upper ← triu (ones attn_shape) 1;
  let subsequent_mask := eq_scalar upper 0 in
  pm ← pad_mask self x;
  band pm subsequent_mask.

Definition shift_right (self : t H) (labels : tensor Z) : result (tensor Z) :=
  let shifted := zeros (shape labels) in
  src ← cols_init labels;
  shifted ← set_cols_tail shifted src;
  set_col0 shifted (pad_id self).

(** Lines 171-176 of [genreate]: the arg-max, the early stop and the
    write into the buffer. *)
Definition genreate_update (self : t H) (preds : tensor Z) (i : nat) (dec_out : H)
  : result loop_ctl :=
  logits ← argmax_last (fc_out self dec_out);
  if tsum logits =? 0 then Ok Break
  else preds ← set_item0 preds i logits; Ok (Continue preds).

(** Lines 169-176: one iteration of the loop. *)
Definition genreate_step (self : t H) (memory : H) (e_mask : tensor bool)
    (preds : tensor Z) (i : nat) : result loop_ctl :=
  d_mask ← dec_mask self preds;
  dec_out ← Decoder.call (decoder self)
              [AIds preds; AHidden memory; AMask (MTensor e_mask);
               AMask (MTensor d_mask)];
  genreate_update self preds i dec_out.

Fixpoint genreate_loop (self : t H) (memory : H) (e_mask : tensor bool)
    (range : list nat) (preds : tensor Z) : result (tensor Z) :=
  match range with
  | [] => Ok preds
  | i :: range' =>
      c ← genreate_step self memory e_mask preds i;
      match c with
      | Break => Ok preds
      | Continue preds => genreate_loop self memory e_mask range' preds
      end
  end.

Definition genreate (self : t H) (input_ids attention_mask : tensor Z)
  : result (list (list Z)) :=
  batch_size ← size0 input_ids;
  e_mask ← pad_mask self input_ids;
  let bert_out := bert self input_ids attention_mask in
  memory ← Encoder.call (encoder self)
             [AIds input_ids; AMask (MTensor e_mask); AHidden bert_out];
  let preds := zeros [batch_size; max_len self] in
  preds ← genreate_loop self memory e_mask
            (seq 1 (max_len self - 1)) preds;
  Ok (tolist2 preds).

(** Lines 182-187 of [forward]: the local variables before the
    stacks are run. *)
Definition forward_prepare (self : t H)
    (input_ids attention_mask labels : tensor Z) : result (locals H) :=
  shifted_labels ← shift_right self labels;
  pm ← pad_mask self input_ids;
  let e_mask := MTuple [pm] in
  d_mask ← dec_mask self shifted_labels;
  let bert_out := bert self input_ids attention_mask in
  Ok (Locals shifted_labels e_mask d_mask bert_out).

(** Line 189. *)
Definition forward_memory (self : t H) (input_ids : tensor Z) (loc : locals H)
  : result H :=
  Encoder.call (encoder self)
    [AIds input_ids; AMask (e_mask loc); AHidden (bert_out loc)].

(** Lines 190 and 192. *)
Definition forward_logits (self : t H) (loc : locals H) (memory : H)
  : result (tensor Qc) :=
  d_out ← Decoder.call (decoder self)
            [AIds (shifted_labels loc); AHidden memory; AMask (e_mask loc);
             AMask (MTensor (d_mask loc)); AHidden (bert_out loc)];
  Ok (fc_out self d_out).

(** Lines 193-194: the two arguments of the criterion.  The labels are
    taken to be contiguous in memory, as a collated batch is; their slice
    [labels[:, 1:]] is not, in general, and [view] does not copy. *)
Definition loss_input (self : t H) (logits : tensor Qc) : result (tensor Qc) :=
  v ← getattr_vocab_size self;
  view_rows logits v.

Definition loss_target (labels : tensor Z) : result (tensor Z) :=
  sliced ← cols_tail labels;
  if viewable_flat (cols_tail_layout (shape labels))
  then Ok (view_flat sliced)
  else Raise RuntimeError.

Definition forward (self : t H) (input_ids attention_mask labels : tensor Z)
  : result (tensor Qc * Qc) :=
  loc ← forward_prepare self input_ids attention_mask labels;
  memory ← forward_memory self input_ids loc;
  logits ← forward_logits self loc memory;
  input ← loss_input self logits;
  target ← loss_target labels;
  loss ← CrossEntropyLoss.call (criterion self) input target;
  Ok (logits, loss).
End Methods.
End FusedModel.

(** ** run.py: [Config] and [load_model] *)

Module Run.
(** A parameter dictionary: parameter name to tensor. *)
Abbreviation state_dict := (gmap string (tensor Qc)).

(** What [torch.load] returns for a checkpoint file: a mapping whose
    entries are parameter dictionaries or something else. *)
Inductive ckpt_val : Type :=
| CState (sd : state_dict)
| COther.

(** The files under the working directory, by path. *)
Abbreviation filesystem := (gmap string (gmap string ckpt_val)).

(** An [nn.Module] as [load_model] sees it: its class, its parameters
    and the device it lives on. *)
Record model : Type := Model {
  class_name : string;
  state : state_dict;
  device : Py.val
}.

(** [Config.__init__(task, mode, model)]; [use_cuda] is
    [torch.cuda.is_available()]. *)
Definition Config (use_cuda : bool) (task mode model : string) : Py.obj :=
  let cuda_or_cpu := if use_cuda then "cuda" else "cpu" in
  <["device" := Py.VStr (if String.eqb mode "inference" then "cpu" else cuda_or_cpu)]>
  (<["device_type" := Py.VStr cuda_or_cpu]>
  (<["iters_to_accumulate" := Py.VInt 4]>
  (<["learning_rate" := Py.VFloat (Q2Qc (1 # 10000))]>
  (<["batch_size" := Py.VInt 16]>
  (<["n_epochs" := Py.VInt 10]>
  (<["clip" := Py.VInt 1]>
  (<["trg" := Py.VStr (String.substring 2 (String.length task - 2) task)]>
  (<["src" := Py.VStr (String.substring 0 2 task)]>
  (<["ckpt" := Py.VStr ("ckpt/" +:+ task +:+ ".pt")]>
  (<["bert" := Py.VStr "prajjwal1/bert-small"]>
  (<["model_name" := Py.VStr model]>
  (<["mode" := Py.VStr mode]>
  (<["task" := Py.VStr task]> ∅))))))))))))).

(** The model classes [load_model] instantiates; their constructors run
    outside this function. *)
Record constructors : Type := Constructors {
  SimpleModel : Py.obj -> result model;
  FusedModel : Py.obj -> result model;
  from_encoder_decoder_pretrained : Py.val -> Py.val -> result model
}.

(** Two parameter dictionaries with the same keys and, key by key, the
    same shapes. *)
Definition same_params (sd cur : state_dict) : Prop :=
  map_relation (fun _ a b => shape a = shape b)
               (fun _ _ => False) (fun _ _ => False) sd cur.

#[global] Instance same_params_dec sd cur : Decision (same_params sd cur).
Proof. unfold same_params. apply _. Defined.

(** [model.load_state_dict(sd)] (strict): the keys and the shapes must be
    those of the model's own parameters. *)
Definition load_state_dict (m : model) (v : ckpt_val) : result model :=
  match v with
  | CState sd =>
      if decide (same_params sd (state m))
      then Ok (Model (class_name m) sd (device m))
      else Raise RuntimeError
  | COther => Raise TypeError
  end.

(** [model.to(device)] *)
Definition to (m : model) (dev : Py.val) : model :=
  Model (class_name m) (state m) dev.

(** A local variable that may not have been assigned. *)
Definition bound {A} (v : option A) : result A :=
  match v with
  | Some a => Ok a
  | None => Raise UnboundLocalError
  end.

(** Lines 46-53: the model the selector names; no branch is taken for
    any other name, and [model] stays unassigned. *)
Definition new_model (cs : constructors) (config : Py.obj) : result (option model) :=
  model_name ← Py.getattr config "model_name";
  if decide (model_name = Py.VStr "simple")
  then Some <$> SimpleModel cs config
  else if decide (model_name = Py.VStr "fused")
  then Some <$> FusedModel cs config
  else if decide (model_name = Py.VStr "generation")
  then bert ← Py.getattr config "bert";
       Some <$> from_encoder_decoder_pretrained cs bert bert
  else Ok None.

Definition load_model (cs : constructors) (fs : filesystem) (config : Py.obj)
  : result model :=
  model ← new_model cs config;
  model_name ← Py.getattr config "model_name";
  _ ← Py.upper model_name;
  mode ← Py.getattr config "mode";
  model ←
    (if decide (mode ≠ Py.VStr "train")
     then ckpt ← Py.getattr config "ckpt" ≫= Py.as_str;
          match fs !! ckpt with
          | None => Raise AssertionError
          | Some mapping =>
              _ ← Py.getattr config "ckpt";
              _ ← Py.getattr config "device";
              match mapping !! "model_state_dict" with
              | None => Raise KeyError
              | Some model_state =>
                  m ← bound model;
                  m ← load_state_dict m model_state;
                  Ok (Some m)
              end
          end
     else Ok model);
  m ← bound model;
  dev ← Py.getattr config "device";
  Ok (to m dev).
End Run.

(** ** modules/data.py: [Dataset] and [load_dataloader] *)

Module Data.
(** One example of a split file, and the files [data/<split>.json]. *)
Abbreviation example := (gmap string string).
Abbreviation filesystem := (gmap string (list example)).

(** The methods the class body of [Dataset] defines. *)
Inductive method : Type :=
| M_init
| M_read_dataset
| M_tokenize_dataset
| M_len
| M_getitem.

Definition Dataset_methods : list (string * method) :=
  [("__init__", M_init);
   ("read_dataset", M_read_dataset);
   ("tokenize_dataset", M_tokenize_dataset);
   ("__len__", M_len);
   ("__getitem__", M_getitem)].

(** [self.<name>] for a method name, while [__init__] runs: the instance
    attributes assigned so far are [model_name] and [tokenizer], the base
    class [torch.utils.data.Dataset] only has operator methods, and what
    is left are the methods of the class body. *)
Definition Dataset_getattr (name : string) : result method :=
  match (list_to_map Dataset_methods : gmap string method) !! name with
  | Some m => Ok m
  | None => Raise AttributeError
  end.

Record Dataset (Tok : Type) : Type := MkDataset {
  model_name : Py.val;
  tokenizer : Tok;
  data : list example
}.
Arguments MkDataset {Tok}.

Record DataLoader (Tok : Type) : Type := MkDataLoader {
  dataset : Dataset Tok;
  batch_size : Py.val;
  shuffle : bool;
  num_workers : nat
}.
Arguments MkDataLoader {Tok}.

Section Load.
(** [load_tokenizer] is the function of that name the module imports from
    [run]; [fs] holds the split files. *)
Context {Tok : Type} (load_tokenizer : Py.obj -> result Tok).
Context (fs : filesystem).

Definition read_dataset (split : string) : result (list example) :=
  match fs !! ("data/" +:+ split +:+ ".json") with
  | Some d => Ok d
  | None => Raise FileNotFoundError
  end.

(** A call [self.m(raw)] from [__init__] with the one argument [raw]:
    [tokenize_dataset] and [__getitem__] read [self.data], which
    [__init__] has not assigned yet; [read_dataset] opens a file named
    after its argument; [__init__] and [__len__] take another number of
    arguments. *)
Definition call_method (m : method) (raw : list example) : result (list example) :=
  match m with
  | M_tokenize_dataset | M_getitem => Raise AttributeError
  | M_read_dataset => Raise FileNotFoundError
  | M_init | M_len => Raise TypeError
  end.

(** [Dataset.__init__(config, split)] *)
Definition Dataset_init (config : Py.obj) (split : string) : result (Dataset Tok) :=
  name ← Py.getattr config "model_name";
  tok ← load_tokenizer config;
  m ← Dataset_getattr "tokenize_data";
  raw ← read_dataset split;
  d ← call_method m raw;
  Ok (MkDataset name tok d).

(** The names bound in the module and in [load_dataloader] when the
    [DataLoader] call is evaluated. *)
Definition names_in_scope : list string :=
  ["json"; "torch"; "load_tokenizer"; "DataLoader"; "pad_sequence";
   "Dataset"; "load_dataloader"; "pad_idx"; "eos_idx";
   "config"; "split"; "_collate_fn"; "dataset"].

Definition lookup_name (name : string) : result string :=
  if decide (name ∈ names_in_scope) then Ok name else Raise NameError.

Definition load_dataloader (config : Py.obj) (split : string)
  : result (DataLoader Tok) :=
  _ ← Py.getattr config "pad_idx";
  _ ← Py.getattr config "eos_idx";
  dataset ← Dataset_init config split;
  bs ← Py.getattr config "batch_size";
  _ ← lookup_name "rnn_collate";
  Ok (MkDataLoader dataset bs false 2).
End Load.

(** A tokenized example: the keys [src] and [trg] with their ids. *)
Abbreviation tokenized := (gmap string (list Z)).

Section Methods.
(** [self.tokenizer.Encode] *)
Context (Encode : string -> list Z).

(** [Dataset.tokenize_dataset], as a function of [self.data] (its
    parameter [tokenizer] is not used by the body). *)
Fixpoint tokenize_dataset (data : list example) : result (list tokenized) :=
  match data with
  | [] => Ok []
  | elem :: data' =>
      src ← Py.getitem elem "src";
      trg ← Py.getitem elem "trg";
      let temp : tokenized := <["trg" := Encode trg]> (<["src" := Encode src]> ∅) in
      tokenized ← tokenize_dataset data';
      Ok (temp :: tokenized)
  end.

(** [self.data[idx]] for a Python integer index. *)
Definition list_getitem {A} (l : list A) (idx : Z) : result A :=
  let i := if idx <? 0 then idx + Z.of_nat (length l) else idx in
  if i <? 0 then Raise IndexError
  else match l !! Z.to_nat i with
       | Some a => Ok a
       | None => Raise IndexError
       end.

(** [Dataset.__len__] and [Dataset.__getitem__], as functions of
    [self.model_name] and [self.data]. *)
Definition len (data : list tokenized) : nat := length data.

Definition getitem (model_name : Py.val) (data : list tokenized) (idx : Z)
  : result (list Z * list Z) :=
  src ← list_getitem data idx ≫= fun elem => Py.getitem elem "src";
  trg ← (if decide (model_name = Py.VStr "transformer")
         then elem ← list_getitem data idx;
              trg ← Py.getitem elem "trg";
              Ok (Py.slice None (Some (-1)) trg)
         else elem ← list_getitem data idx;
              Py.getitem elem "trg");
  Ok (src, trg).

(** An example that has both keys, and its tokenized form. *)
Definition complete (elem : example) : Prop :=
  is_Some (elem !! "src") /\ is_Some (elem !! "trg").

Definition encoded (elem : example) : tokenized :=
  <["trg" := Encode (default "" (elem !! "trg"))]>
  (<["src" := Encode (default "" (elem !! "src"))]> ∅).
End Methods.

(** A batch as [_collate_fn] returns it; each 2-D tensor is given by its
    rows. *)
Record batch : Type := Batch {
  src : list (list Z);
  trg : list (list Z)
}.

(** [pad_sequence(seqs, batch_first=True, padding_value=pad)]: every
    sequence is filled up to the longest; an empty list is refused. *)
Definition max_length (seqs : list (list Z)) : nat :=
  foldr Nat.max 0%nat (length <$> seqs).

Definition pad_sequence (seqs : list (list Z)) (pad : Z) : result (list (list Z)) :=
  match seqs with
  | [] => Raise RuntimeError
  | _ => Ok ((fun seq => seq ++ replicate (max_length seqs - length seq) pad) <$> seqs)
  end.

(** [torch.column_stack((rows, col))] for a 2-D and a 1-D tensor of the
    same number of rows. *)
Definition column_stack (rows : list (list Z)) (col : list Z) : result (list (list Z)) :=
  if (length rows =? length col)%nat
  then Ok (zip_with (fun r e => r ++ [e]) rows col)
  else Raise RuntimeError.

(** [_collate_fn] of [load_dataloader], with the globals [pad_idx] and
    [eos_idx]. *)
Definition _collate_fn (pad_idx eos_idx : Z) (items : list (list Z * list Z))
  : result batch :=
  let src_batch := fst <$> items in
  let trg_batch := snd <$> items in
  let batch_size := length src_batch in
  let eos_batch := replicate batch_size eos_idx in
  src_batch ← pad_sequence src_batch pad_idx;
  trg_batch ← pad_sequence trg_batch pad_idx;
  trg_batch ← column_stack trg_batch eos_batch;
  Ok (Batch src_batch trg_batch).
End Data.

(** ** setup.py: [process] and [save_data] *)

Module Setup.
(** A processed record (keys [en_ids], [en_mask], [de_ids], [de_mask]). *)
Abbreviation entry := (gmap string (list Z)).

(** What the tokenizer returns for a sequence. *)
Record encoding : Type := Encoding {
  input_ids : list Z;
  attention_mask : list Z
}.

Definition min_len : Z := 10.
Definition max_len : Z := 300.
Definition max_diff : Z := 50.

(** The files and directories [save_data] writes to. *)
Record files : Type := Files {
  dirs : gset string;
  contents : gmap string (list entry)
}.

Section Process.
(** Python's [str].  The texts of the corpus are values of a type [Str]
    of which [process] uses [len(s)] and [s.lower()] only; both are
    Python's own (lengths in characters, Unicode case mapping) and are
    parameters here, as is the tokenizer
    [tokenizer(seq, max_length=max_len, truncation=True)].  An element of
    the corpus is a dictionary with the keys [en] and [de]. *)
Context {Str : Type} (len : Str -> nat) (lower : Str -> Str).
Context (tokenizer : Str -> encoding).

(** Lines 17-24: the filter on the two lower-cased sequences. *)
Definition condition (en_seq de_seq : Str) : bool :=
  let en_len := Z.of_nat (len en_seq) in
  let de_len := Z.of_nat (len de_seq) in
  let min_condition := (min_len <=? en_len) && (min_len <=? de_len) in
  let max_condition := (en_len <=? max_len) && (de_len <=? max_len) in
  let dif_condition := Z.abs (en_len - de_len) <? max_diff in
  max_condition && min_condition && dif_condition.

(** Lines 25-33. *)
Definition temp_dict (en_seq de_seq : Str) : entry :=
  let en_tokenized := tokenizer en_seq in
  let de_tokenized := tokenizer de_seq in
  <["de_mask" := attention_mask de_tokenized]>
  (<["de_ids" := input_ids de_tokenized]>
  (<["en_mask" := attention_mask en_tokenized]>
  (<["en_ids" := input_ids en_tokenized]> ∅))).

(** The loop of [process], from the elements still to visit, the counter
    and the list built so far. *)
Fixpoint process_loop (orig_data : list (gmap string Str)) (volumn volumn_cnt : Z)
    (processed : list entry) : result (list entry) :=
  match orig_data with
  | [] => Ok processed
  | elem :: orig_data' =>
      en ← Py.getitem elem "en";
      de ← Py.getitem elem "de";
      let en_seq := lower en in
      let de_seq := lower de in
      if condition en_seq de_seq
      then let processed := processed ++ [temp_dict en_seq de_seq] in
           let volumn_cnt := volumn_cnt + 1 in
           if volumn_cnt =? volumn then Ok processed
           else process_loop orig_data' volumn volumn_cnt processed
      else process_loop orig_data' volumn volumn_cnt processed
  end.

Definition process (orig_data : list (gmap string Str)) (volumn : Z)
  : result (list entry) :=
  process_loop orig_data volumn 0 [].

(** An element that has both keys. *)
Definition has_keys (elem : gmap string Str) : Prop :=
  is_Some (elem !! "en") /\ is_Some (elem !! "de").

(** The filter and the record in the words of the properties below: an
    element passes when both lower-cased texts have between 10 and 300
    characters and their lengths differ by less than 50; its record holds
    the ids and the attention masks of the two lower-cased texts. *)
Definition passes (elem : gmap string Str) : bool :=
  match elem !! "en", elem !! "de" with
  | Some en, Some de =>
      let n := Z.of_nat (len (lower en)) in
      let m := Z.of_nat (len (lower de)) in
      bool_decide (10 <= n <= 300 /\ 10 <= m <= 300 /\ - 50 < n - m < 50)
  | _, _ => false
  end.

Definition record_of (elem : gmap string Str) : entry :=
  match elem !! "en", elem !! "de" with
  | Some en, Some de =>
      list_to_map
        [("en_ids", input_ids (tokenizer (lower en)));
         ("en_mask", attention_mask (tokenizer (lower en)));
         ("de_ids", input_ids (tokenizer (lower de)));
         ("de_mask", attention_mask (tokenizer (lower de)))]
  | _, _ => ∅
  end.
End Process.

(** Line 48: the three slices. *)
Definition split_train {A} (data_obj : list A) : list A :=
  Py.slice None (Some (-4000)) data_obj.
Definition split_valid {A} (data_obj : list A) : list A :=
  Py.slice (Some (-4000)) (Some (-1000)) data_obj.
Definition split_test {A} (data_obj : list A) : list A :=
  Py.slice (Some (-1000)) None data_obj.

(** Lines 52-54: the file is opened for writing (its directory must
    exist), the value is dumped, and the path is asserted to exist. *)
Definition dump (fs : files) (key : string) (val : list entry) : result files :=
  let path := "data/" +:+ key +:+ ".json" in
  if decide ("data" ∈ dirs fs)
  then let fs := Files (dirs fs) (<[path := val]> (contents fs)) in
       if decide (is_Some (contents fs !! path)) then Ok fs
       else Raise AssertionError
  else Raise FileNotFoundError.

Fixpoint dump_all (fs : files) (data_dict : list (string * list entry))
  : result files :=
  match data_dict with
  | [] => Ok fs
  | (key, val) :: data_dict' => fs ← dump fs key val; dump_all fs data_dict'
  end.

Definition save_data (fs : files) (data_obj : list entry) : result files :=
  let train := split_train data_obj in
  let valid := split_valid data_obj in
  let test := split_test data_obj in
  let data_dict := zip ["train"; "valid"; "test"] [train; valid; test] in
  dump_all fs data_dict.
End Setup.

(** ** run.py: [train], [test], [inference], [main] and the script *)

Module Main.
(** How a run ends: a value is returned, an exception is not caught, or
    [input()] finds the standard input closed. *)
Inductive outcome (A : Type) : Type :=
| Returned (a : A)
| Uncaught (e : exn)
| EndOfInput.
Arguments Returned {A} a.
Arguments Uncaught {A} e.
Arguments EndOfInput {A}.

#[global] Instance outcome_bind : MBind outcome := fun A B k o =>
  match o with
  | Returned a => k a
  | Uncaught e => Uncaught e
  | EndOfInput => EndOfInput
  end.

Definition of_result {A} (r : result A) : outcome A :=
  match r with
  | Ok a => Returned a
  | Raise e => Uncaught e
  end.

(** What [inference] writes to the standard output. *)
Inductive printed : Type :=
| Started
| Hint
| Prompt
| Terminated
| ModelOut (output_seq : string).

(** The parsed command line. *)
Record args : Type := Args {
  task : string;
  mode : string;
  model : string
}.

Section Driver.
Context {Tok : Type}.
(** [torch.cuda.is_available()], the model constructors, the checkpoint
    files and the split files. *)
Context (use_cuda : bool) (cs : Run.constructors).
Context (ckpts : Run.filesystem) (splits : Data.filesystem).
(** The tokenizer loaders, [model.config.pad_token_id], the trainer and
    the tester, and the tokenizer and model calls of [inference]. *)
Context (load_tokenizer : Py.obj -> result Tok).
Context (from_pretrained : Py.val -> result Tok).
Context (pad_token_id : Run.model -> result Py.val).
Context (Trainer_train :
           Py.obj -> Run.model -> Data.DataLoader Tok -> Data.DataLoader Tok -> result unit).
Context (Tester_test :
           Py.obj -> Run.model -> Tok -> Data.DataLoader Tok -> result unit).
Context (tokenize : Tok -> string -> result (list Z)).
Context (generate : Run.model -> list Z -> result (list Z)).
Context (decode : Tok -> list Z -> result string).

Definition train (config : Py.obj) (model : Run.model) : result unit :=
  train_dataloader ← Data.load_dataloader load_tokenizer splits config "train";
  valid_dataloader ← Data.load_dataloader load_tokenizer splits config "valid";
  Trainer_train config model train_dataloader valid_dataloader.

Definition test (config : Py.obj) (model : Run.model) (tokenizer : Tok) : result unit :=
  test_dataloader ← Data.load_dataloader load_tokenizer splits config "test";
  Tester_test config model tokenizer test_dataloader.

(** The [while True] loop of [inference], from the lines still to be read
    and what was printed so far; it returns both. *)
Fixpoint inference_loop (model : Run.model) (tokenizer : Tok)
    (stdin : list string) (stdout : list printed)
  : outcome (list printed * list string) :=
  match stdin with
  | [] => EndOfInput
  | line :: stdin' =>
      let stdout := stdout ++ [Prompt] in
      let input_seq := Py.lower line in
      if decide (input_seq = "quit")
      then Returned (stdout ++ [Terminated], stdin')
      else
        output_seq ← of_result (input_ids ← tokenize tokenizer input_seq;
                                 output_ids ← generate model input_ids;
                                 decode tokenizer output_ids);
        inference_loop model tokenizer stdin' (stdout ++ [ModelOut output_seq])
  end.

Definition inference (model : Run.model) (tokenizer : Tok) (stdin : list string)
  : outcome (list printed * list string) :=
  inference_loop model tokenizer stdin [Started; Hint].

(** A call [Config(...)] with positional arguments: [__init__] has the
    three parameters [task], [mode] and [model] besides [self]. *)
Definition Config_call (positional : list string) : result Py.obj :=
  match positional with
  | [task; mode; model] => Ok (Run.Config use_cuda task mode model)
  | _ => Raise TypeError
  end.

Definition main (a : args) (stdin : list string) : outcome unit :=
  config ← of_result (Config_call [task a; task a]);
  model ← of_result (Run.load_model cs ckpts config);
  pad ← of_result (pad_token_id model);
  let config : Py.obj := <["pad_id" := pad]> config in
  tokenizer ← of_result
    (config_task ← Py.getattr config "task";
     if decide (config_task ≠ Py.VStr "train")
     then name ← Py.getattr config "model_name";
          Some <$> from_pretrained name
     else Ok None);
  config_mode ← of_result (Py.getattr config "mode");
  if decide (config_mode = Py.VStr "train")
  then of_result (train config model)
  else if decide (config_mode = Py.VStr "test")
  then tokenizer ← of_result (Run.bound tokenizer);
       of_result (test config model tokenizer)
  else if decide (config_mode = Py.VStr "inference")
  then tokenizer ← of_result (Run.bound tokenizer);
       _ ← inference model tokenizer stdin;
       Returned ()
  else Returned ().

(** The [__main__] block: the three assertions, then [main]. *)
Definition script (a : args) (stdin : list string) : outcome unit :=
  if decide (task a ∈ ["ende"; "deen"])
  then if decide (mode a ∈ ["train"; "test"; "inference"])
       then if decide (model a ∈ ["simple"; "fused"; "generation"])
            then main a stdin
            else Uncaught AssertionError
       else Uncaught AssertionError
  else Uncaught AssertionError.
End Driver.
End Main.

(** ** Concrete layers, models and inputs *)

Module Examples.

(** Float tensors of one fixed shape, with elementwise arithmetic. *)
Record fixed (sh : list nat) : Type := Fixed { values : list nat -> Qc }.
Arguments Fixed {sh} values.
Arguments values {sh} _ idx.

#[global] Instance fixed_Hidden (sh : list nat) : Hidden (fixed sh) := {
  hadd a b := Fixed (fun idx => (values a idx + values b idx)%Qc);
  hscale a c := Fixed (fun idx => (values a idx * c)%Qc);
  hsub a b := Fixed (fun idx => (values a idx - values b idx)%Qc);
  hzero := Fixed (fun _ => Q2Qc 0)
}.

Definition qc (z : Z) : Qc := Q2Qc (inject_Z z).

Definition plain : Sublayer.t Qc := Sublayer.Make id id.

Definition all_true : mask_value := MTensor (full [] true).



(** A decoder layer on scalars whose encoder-decoder attention (the
    negated value) differs from its pretrained-context attention (the
    value). *)
Definition dec_layer : DecoderLayer.t Qc :=
  DecoderLayer.Make (fun q k v _ => q) (fun q k v _ => v)
                    (fun q k v _ => (- v)%Qc) id
                    plain plain plain plain.

(** A fused model on hidden states of shape (B, L, V) without layers:
    the decoder output is the constant [out], and the output projection
    is the identity. *)
Definition toy (B L V : nat) (out : fixed [B; L; V]) (vs : option nat)
  : FusedModel.t (fixed [B; L; V]) :=
  FusedModel.Make 0 L (fun _ _ => hzero)
    (Encoder.Make (fun _ => hzero) id [])
    (Decoder.Make (fun _ => out) id [])
    (fun h => Tensor [B; L; V] (values h))
    (CrossEntropyLoss.Make 0 (Q2Qc 0.1%Q) (fun _ _ _ _ => Q2Qc 0))
    vs.

(** Logits that grow with the vocabulary index: the arg-max is the last
    vocabulary entry at every position. *)
Definition rising {sh : list nat} : fixed sh :=
  Fixed (fun idx => qc (Z.of_nat (default 0%nat (last idx)))).

(** The submodules and the configuration of a model built by
    [__init__]. *)
Definition toy_modules (B L V : nat) : FusedModel.modules (fixed [B; L; V]) :=
  FusedModel.Modules (fun _ _ => hzero)
    (Encoder.Make (fun _ => hzero) id [])
    (Decoder.Make (fun _ => rising) id [])
    (fun h => Tensor [B; L; V] (values h))
    (fun _ _ _ _ => Q2Qc 0).

Definition toy_config : Py.obj :=
  <["vocab_size" := Py.VInt 2]>
  (<["n_layers" := Py.VInt 0]>
  (<["dropout_ratio" := Py.VFloat (Q2Qc 0.1%Q)]>
  (<["hidden_dim" := Py.VInt 2]>
  (<["bert_mname" := Py.VStr "prajjwal1/bert-small"]>
  (<["max_len" := Py.VInt 3]>
  (<["pad_id" := Py.VInt 0]>
  (<["device" := Py.VStr "cpu"]> ∅))))))).

(** A source batch [[8, 9]] and a target batch [[5, 6, 7]]. *)
Definition src_ids : tensor Z := of_rows 0 2 [[8; 9]].
Definition trg_ids : tensor Z := of_rows 0 3 [[5; 6; 7]].

(** A model on scalars whose encoder reports what it was given as a
    mask: 1 for a tuple, 0 for a tensor. *)
Definition mask_probe : MultiHeadAttention Qc := fun q k v mask =>
  match mask with
  | MTuple _ => qc 1
  | MTensor _ => qc 0
  end.

Definition probe_layer : EncoderLayer.t Qc :=
  EncoderLayer.Make mask_probe mask_probe (fun _ => qc 0) plain plain plain.

Definition probe_model : FusedModel.t Qc :=
  FusedModel.Make 0 3 (fun _ _ => qc 0)
    (Encoder.Make (fun _ => qc 0) id [probe_layer])
    (Decoder.Make (fun _ => qc 0) id [])
    (fun _ => full [1%nat; 3%nat; 2%nat] (qc 0))
    (CrossEntropyLoss.Make 0 (Q2Qc 0.1%Q) (fun _ _ _ _ => Q2Qc 0))
    None.

(** A pretrained encoder-decoder with one parameter, a checkpoint file
    for the task [ende], and the constructors of [load_model]; the fused
    model is constructed by [FusedModel.init]. *)
Definition pretrained : Run.model :=
  Run.Model "EncoderDecoderModel" {["w" := full [2%nat] (qc 0)]} (Py.VStr "cpu").

Definition trained : Run.state_dict := {["w" := full [2%nat] (qc 1)]}.

Definition ckpt_files : Run.filesystem :=
  {["ckpt/ende.pt" := {["model_state_dict" := Run.CState trained]}]}.

Definition toy_constructors : Run.constructors :=
  Run.Constructors
    (fun _ => Ok (Run.Model "SimpleModel" ∅ (Py.VStr "cpu")))
    (fun config =>
       _ ← FusedModel.init config (toy_modules 1 3 2);
       Ok (Run.Model "FusedModel" ∅ (Py.VStr "cpu")))
    (fun _ _ => Ok pretrained).

(** A tokenizer loader that succeeds, and a configuration that carries
    the two indices [load_dataloader] reads. *)
Definition toy_tokenizer (config : Py.obj) : result string := Ok "tokenizer".

Definition data_config : Py.obj :=
  <["eos_idx" := Py.VInt 102]>
  (<["pad_idx" := Py.VInt 0]> (Run.Config false "ende" "train" "fused")).

Definition data_files : Data.filesystem :=
  {["data/train.json" := [ {["src" := "guten tag"; "trg" := "good day"]} ]]}.

(** A corpus of three elements: the second is too short for the filter,
      the third lacks the key [de]; and a tokenizer that answers with the
      length of the sequence. *)
Definition corpus : list (gmap string string) :=
  [ {["en" := "Good Morning all"; "de" := "Guten Morgen alle"]};
    {["en" := "Hello"; "de" := "Hallo"]} ].

Definition broken_corpus : list (gmap string string) :=
  corpus ++ [ {["en" := "no translation here"]} ].

Definition length_tokenizer (seq : string) : Setup.encoding :=
  Setup.Encoding [Z.of_nat (String.length seq)] [1].

(** A file system with the directory [data], and two records. *)
Definition data_dir : Setup.files := Setup.Files {["data"]} ∅.

Definition two_entries : list Setup.entry :=
  [ {["en_ids" := [1; 2]]}; {["en_ids" := [3]]} ].

(** Two raw examples and an encoder that answers the length of the
    sequence; two items of a batch; tokenized data. *)
Definition raw_examples : list Data.example :=
  [ {["src" := "guten tag"; "trg" := "good day"]};
    {["src" := "danke"; "trg" := "thanks"]} ].

Definition length_Encode (seq : string) : list Z := [Z.of_nat (String.length seq)].

Definition items : list (list Z * list Z) :=
  [ ([11; 12; 13], [21; 22]); ([14], [23; 24; 25; 26]) ].

Definition tokenized_data : list Data.tokenized :=
  [ {["src" := [11; 12; 13]; "trg" := [21; 22; 102]]};
    {["src" := [14]; "trg" := [23; 102]]} ].

(** A tokenizer and a model for the inference loop: the length of the
    line as its only id, a model that fails on lines longer than nine
    characters, and a decoder that spells the number of ids. *)
Definition line_tokenize (tok : string) (seq : string) : result (list Z) :=
  Ok [Z.of_nat (String.length seq)].

Definition short_generate (m : Run.model) (ids : list Z) : result (list Z) :=
  match ids with
  | [n] => if n <? 10 then Ok ids else Raise RuntimeError
  | _ => Raise RuntimeError
  end.

Definition word_decode (tok : string) (ids : list Z) : result string := Ok "ok".

End Examples.

(** * Properties *)

(** ** Tensor lemmas *)

Section TorchLemmas.

Lemma broadcast_shapes_refl2 (a b : nat) :
  broadcast_shapes [a; b] [a; b] = Some [a; b].
Proof.
  unfold broadcast_shapes. cbn. by rewrite !Nat.eqb_refl.
Qed.

Lemma broadcast_shapes_mask (B L : nat) :
  broadcast_shapes [B; 1%nat; 1%nat; L] [1%nat; L; L] = Some [B; 1%nat; L; L].
Proof.
  unfold broadcast_shapes.
  destruct L as [| [| L']]; cbn; rewrite ?Nat.eqb_refl; reflexivity.
Qed.

Lemma fmap_seq_S {A} (f : nat -> A) (n : nat) :
  f <$> seq 0 (S n) = f 0%nat :: ((fun j => f (S j)) <$> seq 0 n).
Proof.
  cbn [seq fmap list_fmap]. f_equal.
  rewrite <- fmap_S_seq, <- list_fmap_compose. reflexivity.
Qed.

Lemma removelast_fmap_seq {A} (f : nat -> A) (n : nat) :
  removelast (f <$> seq 0 (S n)) = f <$> seq 0 n.
Proof.
  rewrite seq_S, fmap_app. cbn. apply removelast_last.
Qed.

Lemma fmap_seq_ext {A} (f g : nat -> A) (n : nat) :
  (forall j, (j < n)%nat -> f j = g j) -> f <$> seq 0 n = g <$> seq 0 n.
Proof.
  intros Hfg. apply list_fmap_ext. intros i j Hj.
  apply lookup_seq in Hj as [-> Hlt]. apply Hfg. exact Hlt.
Qed.

End TorchLemmas.

(** ** The masks and the shift of [FusedModel] *)

Section Masks.
Context {H : Type} `{Hidden H}.
Variable self : FusedModel.t H.

Lemma pad_mask_ok (x : tensor Z) (B L : nat) :
  shape x = [B; L] ->
  exists pm, FusedModel.pad_mask self x = Ok pm
    /\ shape pm = [B; 1%nat; 1%nat; L]
    /\ forall b i k j, at_ pm [b; i; k; j] = negb (at_ x [b; j] =? FusedModel.pad_id self).
Proof.
  intros Hx. unfold FusedModel.pad_mask, unsqueeze, ne_scalar, tmap.
  cbn. rewrite Hx. cbn. eexists. split; [reflexivity |].
  cbn. split; reflexivity.
Qed.

(** C6. For a token-id tensor [x] of shape (B, L), [dec_mask x] returns a
    boolean tensor of shape (B, 1, L, L), and its entry at (b, 0, i, j)
    is true exactly when [j <= i] and [x[b, j]] is not the pad id. *)
Theorem dec_mask_entry (x : tensor Z) (B L : nat) :
  shape x = [B; L] ->
  exists m, FusedModel.dec_mask self x = Ok m
    /\ shape m = [B; 1%nat; L; L]
    /\ forall b i j, (b < B)%nat -> (i < L)%nat -> (j < L)%nat ->
         (at_ m [b; 0%nat; i; j] = true
          <-> (j <= i)%nat /\ at_ x [b; j] <> FusedModel.pad_id self).
Proof.
  intros Hx.
  destruct (pad_mask_ok x B L Hx) as (pm & Hpm & Hsh & Hat).
  unfold FusedModel.dec_mask, size_last. rewrite Hx. cbn.
  rewrite Hpm. cbn. unfold band, zip_bcast. rewrite Hsh. cbn [shape eq_scalar tmap].
  rewrite broadcast_shapes_mask.
  eexists. split; [reflexivity |]. split; [reflexivity |].
  intros b i j Hb Hi Hj. cbn.
  rewrite andb_true_iff, Hat, negb_true_iff, Z.eqb_neq, Z.eqb_eq.
  assert (Hj' : (if (L =? 1)%nat then 0%nat else j) = j).
  { destruct (Nat.eqb_spec L 1); lia. }
  assert (Hi' : (if (L =? 1)%nat then 0%nat else i) = i).
  { destruct (Nat.eqb_spec L 1); lia. }
  assert (Hb' : (if (B =? 1)%nat then 0%nat else b) = b).
  { destruct (Nat.eqb_spec B 1); lia. }
  rewrite Hj', Hi', Hb'. cbn.
  destruct (Z.ltb_spec (Z.of_nat j - Z.of_nat i) 1); split;
    intros [? ?]; split; auto; try lia; discriminate.
Qed.

(** C7. For a label tensor of shape (B, n+1) whose row [b] is
    [t0, ..., tn], [shift_right] returns a tensor of the same shape whose
    row [b] is [pad_id, t0, ..., t(n-1)]; dropping the first position of
    the shifted row gives the original row without its last token. *)
Theorem shift_right_row (labels : tensor Z) (B n : nat) :
  shape labels = [B; S n] ->
  exists shifted, FusedModel.shift_right self labels = Ok shifted
    /\ shape shifted = [B; S n]
    /\ forall b, (b < B)%nat ->
         row shifted b = FusedModel.pad_id self :: removelast (row labels b)
         /\ tail (row shifted b) = removelast (row labels b).
Proof.
  intros Hl.
  unfold FusedModel.shift_right, cols_init, set_cols_tail, set_col0.
  rewrite Hl. cbn. rewrite Nat.sub_0_r.
  destruct (decide _) as [_ | Hno].
  2: { exfalso. apply Hno. split; [apply broadcast_shapes_refl2 | cbn; lia]. }
  cbn. eexists. split; [reflexivity |]. split; [reflexivity |].
  intros b Hb.
  assert (Hrow : row labels b = (fun j => at_ labels [b; j]) <$> seq 0 (S n)).
  { unfold row. by rewrite Hl. }
  rewrite Hrow, removelast_fmap_seq.
  unfold row. cbn [shape]. rewrite fmap_seq_S. cbn [tail].
  assert (Hbody : (fun j => at_ labels (bindex [B; n] [b; j])) <$> seq 0 n
                  = (fun j => at_ labels [b; j]) <$> seq 0 n).
  { apply fmap_seq_ext. intros j Hj. unfold bindex. cbn.
    destruct (Nat.eqb_spec B 1), (Nat.eqb_spec n 1);
      repeat f_equal; lia. }
  cbn [at_]. split; [f_equal |]; exact Hbody.
Qed.

End Masks.

(** The end-to-end scenario of the specification: the mask of the source
    ids [101, 45, 67, 102, 0, 0] and the decoder input for the target
    [101, 22, 102], with pad id 0. *)
Example pad_mask_scenario :
  elements <$> FusedModel.pad_mask Examples.probe_model
                 (of_rows 0 6 [[101; 45; 67; 102; 0; 0]])
  = Ok [true; true; true; true; false; false].
Proof. reflexivity. Qed.

Example shift_right_scenario :
  tolist2 <$> FusedModel.shift_right Examples.probe_model
                (of_rows 0 3 [[101; 22; 102]])
  = Ok [[0; 101; 22]].
Proof. reflexivity. Qed.

(** ** The fusion of the layers *)


#[global] Instance prod_HiddenLaws {A B} `{HiddenLaws A} `{HiddenLaws B} :
  HiddenLaws (A * B).
Proof.
  split; cbn.
  - intros [a1 a2] [b1 b2]; cbn. f_equal; apply hadd_comm.
  - intros [a1 a2] [b1 b2] [c1 c2]; cbn. f_equal; apply hadd_assoc.
  - intros [a1 a2]; cbn. f_equal; apply hadd_zero.
  - intros [a1 a2] [b1 b2]; cbn. f_equal; apply hsub_add.
  - intros c. f_equal; apply hscale_zero.
Qed.

Section ExactFusion.
Context {H : Type} `{HiddenLaws H}.
Local Open Scope hidden_scope.


End ExactFusion.


Section Fusion.
Context {H : Type} `{Hidden H}.
Local Open Scope hidden_scope.


End Fusion.


Section DecoderFusion.
Context {H : Type} `{Hidden H}.

(** The forward pass never consults [enc_dec_attn] or [e_sublayer]. *)
Lemma DecoderLayer_forward_ignores_enc_dec (self : DecoderLayer.t H)
    (attn : MultiHeadAttention H) (wrapper : Sublayer.t H)
    (x memory : H) (e_mask d_mask : mask_value) (bert_out : H) :
  DecoderLayer.forward (DecoderLayer.with_enc_dec self attn wrapper) x memory e_mask d_mask bert_out
  = DecoderLayer.forward self x memory e_mask d_mask bert_out.
Proof. reflexivity. Qed.

(** Its encoder-memory branch is the pretrained-context attention under
    the pretrained-context wrapper, with the memory as key and value. *)
Lemma DecoderLayer_branch_e_reuses_bert (self : DecoderLayer.t H)
    (x memory : H) (e_mask : mask_value) :
  DecoderLayer.branch_e self x e_mask memory
  = DecoderLayer.branch_b self x e_mask memory.
Proof. reflexivity. Qed.
End DecoderFusion.

(** C1 (fails on the code). On the decoder layer [Examples.dec_layer],
    whose encoder-decoder attention differs from its pretrained-context
    attention, with [x = 1], memory [2] and pretrained context [4]: the
    encoder-memory branch computed by [forward] is [2], the value of
    [bert_attn] under [b_sublayer], and not [-2], the value of
    [enc_dec_attn] under [e_sublayer]; the fused value is [4] where the
    specified fusion gives [2]. *)
Theorem DecoderLayer_e_branch_on_bert_attn :
  let self := Examples.dec_layer in
  let x := Examples.qc 1 in
  let m := Examples.qc 2 in
  let b := Examples.qc 4 in
  DecoderLayer.branch_e self x Examples.all_true m = Examples.qc 2
  /\ DecoderLayer.branch_e_spec self x Examples.all_true m = Examples.qc (-2)
  /\ DecoderLayer.fused self x m Examples.all_true b = Examples.qc 4
  /\ DecoderLayer.fused_spec self x m Examples.all_true b = Examples.qc 2
  /\ DecoderLayer.fused self x m Examples.all_true b
     <> DecoderLayer.fused_spec self x m Examples.all_true b.
Proof.
  cbn zeta. repeat split; try (apply Qc_is_canon; reflexivity).
  intros E. apply (f_equal this) in E. vm_compute in E. discriminate E.
Qed.

(** ** The training forward pass and the generation loop *)

Section Generation.
Context {H : Type} `{Hidden H}.
Variable self : FusedModel.t H.

Lemma dec_mask_ok (x : tensor Z) (B L : nat) :
  shape x = [B; L] ->
  exists m, FusedModel.dec_mask self x = Ok m /\ shape m = [B; 1%nat; L; L].
Proof.
  intros Hx.
  destruct (pad_mask_ok self x B L Hx) as (pm & Hpm & Hsh & _).
  unfold FusedModel.dec_mask, size_last. rewrite Hx. cbn.
  rewrite Hpm. cbn. unfold band, zip_bcast. rewrite Hsh. cbn [shape eq_scalar tmap].
  rewrite broadcast_shapes_mask. eexists. split; reflexivity.
Qed.

(** A call of the decoder with four positional arguments fails. *)
Lemma Decoder_call_four (a b c d : arg H) :
  Decoder.call (FusedModel.decoder self) [a; b; c; d] = Raise TypeError.
Proof.
  unfold Decoder.call.
  destruct a; try reflexivity. destruct b; try reflexivity.
  destruct c; try reflexivity. destruct d; reflexivity.
Qed.

(** Every iteration of the loop fails at the call of the decoder. *)
Lemma genreate_step_TypeError (memory : H) (e_mask : tensor bool)
    (preds : tensor Z) (i B M : nat) :
  shape preds = [B; M] ->
  FusedModel.genreate_step self memory e_mask preds i = Raise TypeError.
Proof.
  intros Hp. unfold FusedModel.genreate_step.
  destruct (dec_mask_ok preds B M Hp) as (m & -> & _).
  cbn [mbind result_bind]. rewrite Decoder_call_four. reflexivity.
Qed.

(** C3 (fails on the code). For a batch of source ids of shape (B, L)
    and a maximum length of at least two, [genreate] raises TypeError:
    the first decoding step calls the decoder with four arguments,
    without the pretrained-encoder output its [forward] requires. *)
Theorem genreate_decoder_call_TypeError (input_ids attention_mask : tensor Z)
    (B L : nat) :
  shape input_ids = [B; L] ->
  (2 <= FusedModel.max_len self)%nat ->
  FusedModel.genreate self input_ids attention_mask = Raise TypeError.
Proof.
  intros Hs Hlen. unfold FusedModel.genreate, size0. rewrite Hs. cbn.
  destruct (pad_mask_ok self input_ids B L Hs) as (pm & -> & _). cbn.
  destruct (FusedModel.max_len self) as [| [| n]] eqn:Hm; [lia | lia |].
  cbn [seq Nat.sub]. cbn [FusedModel.genreate_loop].
  erewrite genreate_step_TypeError by reflexivity. reflexivity.
Qed.

(** X24. With a maximum length below two the loop body never runs and
    [genreate] returns the zero buffer: one row of [max_len] zeros per
    source sequence. *)
Lemma genreate_short (input_ids attention_mask : tensor Z) (B L : nat) :
  shape input_ids = [B; L] ->
  (FusedModel.max_len self < 2)%nat ->
  FusedModel.genreate self input_ids attention_mask
  = Ok (tolist2 (zeros [B; FusedModel.max_len self])).
Proof.
  intros Hs Hlen. unfold FusedModel.genreate, size0. rewrite Hs. cbn.
  destruct (pad_mask_ok self input_ids B L Hs) as (pm & -> & _). cbn.
  destruct (FusedModel.max_len self) as [| [| n]] eqn:Hm; [| | lia]; reflexivity.
Qed.

Lemma strip1_ge2 (B : nat) (sh : list nat) :
  (2 <= B)%nat -> strip1 (B :: sh) = B :: sh.
Proof. destruct B as [| [| B']]; [lia | lia | reflexivity]. Qed.

(** X25. For a buffer of shape (B, M) and logits of shape (B, M, V), the
    update of step [i >= 1] stops the loop or fails; it never writes. *)
Lemma genreate_update_never_writes (preds : tensor Z) (i : nat) (dec_out : H)
    (B M V : nat) :
  shape preds = [B; M] ->
  shape (FusedModel.fc_out self dec_out) = [B; M; V] ->
  (1 <= i)%nat ->
  forall p, FusedModel.genreate_update self preds i dec_out <> Ok (FusedModel.Continue p).
Proof.
  intros Hp Hl Hi p. unfold FusedModel.genreate_update, argmax_last.
  rewrite Hl. cbn.
  destruct (V =? 0)%nat; [discriminate |]. cbn.
  destruct (_ =? 0); [discriminate |].
  unfold set_item0. rewrite Hp. cbn [shape].
  destruct (Nat.ltb_spec i B); [| discriminate].
  rewrite strip1_ge2 by lia.
  destruct (decide _) as [[_ Hlen] |]; [cbn in Hlen; lia | discriminate].
Qed.
End Generation.

Lemma genreate_decoder_call_TypeError_witness :
  FusedModel.genreate (Examples.toy 1 3 2 Examples.rising None)
    Examples.src_ids Examples.src_ids = Raise TypeError.
Proof.
  apply (genreate_decoder_call_TypeError _ _ _ 1%nat 2%nat).
  - reflexivity.
  - cbn. lia.
Defined.

(** C4 (fails on the code). With logits whose arg-max is 1 at every
    position, step [i = 1] writes nothing: on a buffer of shape (2, 3) the
    arg-max tensor has shape (2, 3) and the assignment [preds[1] = logits]
    to the row of batch element 1 raises RuntimeError; on a buffer of shape
    (1, 3) the index 1 is outside the batch dimension and it raises
    IndexError. *)
Theorem genreate_update_writes_batch_row :
  FusedModel.genreate_update (Examples.toy 2 3 2 Examples.rising None)
    (zeros [2%nat; 3%nat]) 1 Examples.rising = Raise RuntimeError
  /\ FusedModel.genreate_update (Examples.toy 1 3 2 Examples.rising None)
       (zeros [1%nat; 3%nat]) 1 Examples.rising = Raise IndexError
  /\ (shape <$> argmax_last (FusedModel.fc_out (Examples.toy 2 3 2 Examples.rising None)
                               Examples.rising)) = Ok [2%nat; 3%nat].
Proof. repeat split; vm_compute; reflexivity. Qed.

Section Training.
Context {H : Type} `{Hidden H}.
Variable self : FusedModel.t H.

(** A model as [__init__] leaves it has no attribute [vocab_size]. *)
Lemma init_no_vocab_size (config : Py.obj) (mods : FusedModel.modules H)
    (m : FusedModel.t H) :
  FusedModel.init config mods = Ok m -> FusedModel.vocab_size m = None.
Proof.
  unfold FusedModel.init. intros Hinit.
  repeat match type of Hinit with
         | (?c ≫= _) = Ok _ => destruct c; cbn in Hinit; [| discriminate]
         end.
  by injection Hinit as <-.
Qed.

(** Without that attribute the forward pass always raises. *)
Lemma forward_without_vocab_size (input_ids attention_mask labels : tensor Z) :
  FusedModel.vocab_size self = None ->
  raises (FusedModel.forward self input_ids attention_mask labels).
Proof.
  intros Hv. unfold FusedModel.forward, raises.
  destruct (FusedModel.forward_prepare _ _ _ _) as [loc |];
    cbn [mbind result_bind]; [| eauto].
  destruct (FusedModel.forward_memory _ _ _) as [memory |];
    cbn [mbind result_bind]; [| eauto].
  destruct (FusedModel.forward_logits _ _ _) as [logits |];
    cbn [mbind result_bind]; [| eauto].
  unfold FusedModel.loss_input, FusedModel.getattr_vocab_size. rewrite Hv.
  cbn [mbind result_bind]. eauto.
Qed.

(** The slice [labels[:, 1:]] of labels of shape (B, L) can be viewed
    flat exactly when there is at most one row or at most one column is
    left. *)
Lemma cols_tail_viewable (B L : nat) :
  viewable_flat (cols_tail_layout [B; L]) = (B <=? 1)%nat || (L <=? 2)%nat.
Proof.
  unfold viewable_flat, cols_tail_layout. cbn [contiguous_strides foldr zip zip_with
    fmap list_fmap fst].
  destruct B as [| [| B]]; destruct L as [| [| [| L]]]; cbn; try reflexivity.
  all: rewrite ?Nat.mul_1_r; cbn.
  - by rewrite Nat.mul_0_r.
  - by rewrite Nat.mul_0_r.
  - rewrite andb_true_r. destruct L as [| m]; [reflexivity |].
    apply Nat.eqb_neq. lia.
Qed.

(** X28. With the attribute [vocab_size] set to [V], logits of shape
    (B, L, V) and labels of shape (B, L), all sizes positive: the logits
    give [B * L] rows for the loss.  With one row of labels, or at most
    two columns, the labels give [B * (L - 1)] targets and the criterion
    raises ValueError; with more the slice [labels[:, 1:]] is not
    contiguous and its [view(-1)] raises RuntimeError before the criterion
    is called. *)
Lemma loss_shapes_differ (logits : tensor Qc) (labels : tensor Z) (B L V : nat) :
  FusedModel.vocab_size self = Some V ->
  (0 < V)%nat -> (0 < B)%nat -> (0 < L)%nat ->
  shape logits = [B; L; V] ->
  shape labels = [B; L] ->
  (exists input, FusedModel.loss_input self logits = Ok input
                 /\ shape input = [(B * L)%nat; V])
  /\ ((B = 1 \/ L <= 2)%nat ->
      exists input target,
        FusedModel.loss_input self logits = Ok input
        /\ FusedModel.loss_target labels = Ok target
        /\ shape target = [(B * (L - 1))%nat]
        /\ CrossEntropyLoss.call (FusedModel.criterion self) input target
           = Raise ValueError)
  /\ ((2 <= B)%nat -> (3 <= L)%nat ->
      FusedModel.loss_target labels = Raise RuntimeError).
Proof.
  intros Hv HV HB HL Hlog Hlab.
  assert (Hin : FusedModel.loss_input self logits
                = Ok (Tensor [(B * L)%nat; V]
                        (fun idx => at_ logits (unravel (shape logits)
                                                  (ravel [(B * L)%nat; V] idx))))).
  { unfold FusedModel.loss_input, FusedModel.getattr_vocab_size, view_rows, numel.
    rewrite Hv, Hlog. cbn [mbind result_bind foldr].
    destruct (Nat.eqb_spec V 0) as [-> | _]; [lia |].
    replace (B * (L * (V * 1)))%nat with ((B * L) * V)%nat by lia.
    by rewrite Nat.Div0.mod_mul, Nat.eqb_refl, Nat.div_mul by lia. }
  split; [eexists; split; [exact Hin | reflexivity] |]. split.
  - intros Hview. rewrite Hin.
    unfold FusedModel.loss_target, cols_tail. rewrite Hlab.
    cbn [mbind result_bind]. rewrite cols_tail_viewable.
    assert (Hok : (B <=? 1)%nat || (L <=? 2)%nat = true).
    { apply orb_true_iff. destruct Hview; [left | right]; apply Nat.leb_le; lia. }
    rewrite Hok. do 2 eexists. split; [reflexivity |]. split; [reflexivity |]. split.
    + cbn. f_equal. lia.
    + unfold CrossEntropyLoss.call. cbn.
      destruct (Nat.eqb_spec (B * L) (B * ((L - 1) * 1))) as [E | _]; [| reflexivity].
      exfalso. nia.
  - intros HB2 HL3. unfold FusedModel.loss_target, cols_tail. rewrite Hlab.
    cbn [mbind result_bind]. rewrite cols_tail_viewable.
    destruct (Nat.leb_spec B 1); [lia |]. destruct (Nat.leb_spec L 2); [lia |].
    reflexivity.
Qed.
End Training.

(** C2 (fails on the code). On the source batch [[8, 9]] and the labels
    [[5, 6, 7]]: a model built by [__init__] has no attribute [vocab_size]
    and the forward pass raises AttributeError where it reshapes the
    logits; with that attribute set to the vocabulary size, the logits
    enter the loss with 3 positions, the labels (their first position
    dropped) with 2, and the criterion raises ValueError. *)
Theorem forward_loss_positions_differ :
  let built := FusedModel.init Examples.toy_config (Examples.toy_modules 1 3 2) in
  let model := Examples.toy 1 3 2 Examples.rising (Some 2%nat) in
  let logits := FusedModel.fc_out model Examples.rising in
  (built ≫= fun m => FusedModel.forward m Examples.src_ids Examples.src_ids
                        Examples.trg_ids) = Raise AttributeError
  /\ (shape <$> FusedModel.loss_input model logits) = Ok [3%nat; 2%nat]
  /\ (shape <$> FusedModel.loss_target Examples.trg_ids) = Ok [2%nat]
  /\ (elements <$> FusedModel.loss_target Examples.trg_ids) = Ok [6; 7]
  /\ FusedModel.forward model Examples.src_ids Examples.src_ids Examples.trg_ids
     = Raise ValueError.
Proof. cbn zeta. repeat split; vm_compute; reflexivity. Qed.

(** C5 (fails on the code). The encoder-side mask of the training forward
    pass is a one-element tuple holding [pad_mask(input_ids)], not that
    tensor; on [Examples.probe_model], whose encoder attention answers 1
    for a tuple mask and 0 for a tensor mask, the memory computed by the
    forward pass is 1, while the same encoder called with the tensor, as
    [genreate] calls it, answers 0. *)
Theorem forward_e_mask_is_tuple :
  (forall (H : Type) (ops : Hidden H) (self : FusedModel.t H)
          (input_ids attention_mask labels : tensor Z),
      match FusedModel.forward_prepare self input_ids attention_mask labels with
      | Ok loc =>
          exists pm, FusedModel.pad_mask self input_ids = Ok pm
                     /\ FusedModel.e_mask loc = MTuple [pm]
                     /\ FusedModel.e_mask loc <> MTensor pm
      | Raise _ => True
      end)
  /\ (loc ← FusedModel.forward_prepare Examples.probe_model Examples.src_ids
             Examples.src_ids Examples.trg_ids;
      this <$> FusedModel.forward_memory Examples.probe_model Examples.src_ids loc)
     = Ok 1%Q
  /\ (pm ← FusedModel.pad_mask Examples.probe_model Examples.src_ids;
      this <$> Encoder.call (FusedModel.encoder Examples.probe_model)
                 [AIds Examples.src_ids; AMask (MTensor pm);
                  AHidden (FusedModel.bert Examples.probe_model Examples.src_ids
                             Examples.src_ids)])
     = Ok 0%Q.
Proof.
  split; [| split; vm_compute; reflexivity].
  intros H ops self input_ids attention_mask labels.
  unfold FusedModel.forward_prepare.
  destruct (FusedModel.shift_right self labels) as [shifted |];
    cbn [mbind result_bind]; [| exact I].
  destruct (FusedModel.pad_mask self input_ids) as [pm |];
    cbn [mbind result_bind]; [| exact I].
  destruct (FusedModel.dec_mask self shifted) as [dm |];
    cbn [mbind result_bind]; [| exact I].
  exists pm. cbn. repeat split. discriminate.
Qed.

(** ** [load_model] *)

Section LoadModel.
Variable cs : Run.constructors.
Variable fs : Run.filesystem.
Variable config : Py.obj.
Variables mode ckpt : string.
Variable dev : Py.val.
Variable m : Run.model.

Hypothesis Hmode : config !! "mode" = Some (Py.VStr mode).
Hypothesis Hckpt : config !! "ckpt" = Some (Py.VStr ckpt).
Hypothesis Hdev : config !! "device" = Some dev.
Hypothesis Hnew : Run.new_model cs config = Ok (Some m).

(** A model was constructed only for one of the three selector strings. *)
Lemma new_model_name :
  exists name, config !! "model_name" = Some (Py.VStr name).
Proof.
  revert Hnew. unfold Run.new_model, Py.getattr.
  destruct (config !! "model_name") as [v |]; cbn [mbind result_bind]; [| discriminate].
  repeat (destruct (decide _) as [-> | _]; [eauto |]). discriminate.
Qed.

(** C9. Given that the selected model was constructed: in mode [train]
    the model is returned as constructed, whatever the files are; in any
    other mode [load_model] raises AssertionError when the checkpoint
    file is missing, and when the file holds a mapping whose
    [model_state_dict] fits the model, the returned model carries that
    parameter dictionary. *)
Theorem load_model_checkpoint_gate :
  (mode = "train" -> Run.load_model cs fs config = Ok (Run.to m dev))
  /\ (mode <> "train" -> fs !! ckpt = None ->
      Run.load_model cs fs config = Raise AssertionError)
  /\ (mode <> "train" ->
      forall mapping sd,
        fs !! ckpt = Some mapping ->
        mapping !! "model_state_dict" = Some (Run.CState sd) ->
        Run.same_params sd (Run.state m) ->
        Run.load_model cs fs config = Ok (Run.Model (Run.class_name m) sd dev)).
Proof.
  destruct new_model_name as [name Hname].
  unfold Run.load_model, Py.getattr.
  rewrite Hnew, Hname, Hmode, Hdev. cbn [mbind result_bind Py.upper].
  repeat split.
  - intros ->. destruct (decide _) as [Hne | _]; [by destruct Hne |].
    reflexivity.
  - intros Hne Hfs. destruct (decide _) as [_ | Heq].
    2: { exfalso. apply Heq. congruence. }
    rewrite Hckpt. cbn. rewrite Hfs. reflexivity.
  - intros Hne mapping sd Hfs Hsd Hsame. destruct (decide _) as [_ | Heq].
    2: { exfalso. apply Heq. congruence. }
    rewrite Hckpt. cbn. rewrite Hfs, Hsd. cbn.
    destruct (decide _) as [_ | Hno]; [reflexivity | by destruct Hno].
Qed.
End LoadModel.

Lemma load_model_checkpoint_gate_witness :
  Run.load_model Examples.toy_constructors Examples.ckpt_files
    (Run.Config false "ende" "test" "generation")
  = Ok (Run.Model "EncoderDecoderModel" Examples.trained (Py.VStr "cpu"))
  /\ Run.load_model Examples.toy_constructors ∅
       (Run.Config false "ende" "test" "generation")
     = Raise AssertionError.
Proof.
  split.
  - refine (proj2 (proj2 (load_model_checkpoint_gate Examples.toy_constructors
              Examples.ckpt_files (Run.Config false "ende" "test" "generation")
              "test" "ckpt/ende.pt" (Py.VStr "cpu") Examples.pretrained
              _ _ _ _)) _ _ Examples.trained _ _ _);
      try reflexivity; try discriminate.
    apply (bool_decide_unpack _). vm_compute. exact I.
  - refine (proj1 (proj2 (load_model_checkpoint_gate Examples.toy_constructors
              ∅ (Run.Config false "ende" "test" "generation")
              "test" "ckpt/ende.pt" (Py.VStr "cpu") Examples.pretrained
              _ _ _ _)) _ _);
      try reflexivity; try discriminate.
Defined.

(** The fused model cannot be constructed from a [Config]: [__init__]
    reads [config.pad_id], which [Config] does not define. *)
Lemma load_model_fused_Config (fs : Run.filesystem) (use_cuda : bool) (task mode : string) :
  Run.load_model Examples.toy_constructors fs (Run.Config use_cuda task mode "fused")
  = Raise AttributeError.
Proof.
  unfold Run.load_model, Run.new_model, Py.getattr, Run.Config.
  simplify_map_eq. cbn.
  unfold FusedModel.init, Py.getattr. simplify_map_eq. reflexivity.
Qed.

(** ** [load_dataloader] *)

Section LoadData.
Context {Tok : Type} (load_tokenizer : Py.obj -> result Tok).
Variable fs : Data.filesystem.

Lemma Dataset_init_raises (config : Py.obj) (split : string) :
  raises (Data.Dataset_init load_tokenizer fs config split).
Proof.
  unfold Data.Dataset_init, raises.
  destruct (Py.getattr config "model_name"); cbn [mbind result_bind]; [| eauto].
  destruct (load_tokenizer config); cbn [mbind result_bind]; eauto.
Qed.

(** C10. For every configuration and every split [load_dataloader]
    raises and returns no dataloader.  The constructor of [Dataset]
    always raises: the class defines [tokenize_dataset] and no
    [tokenize_data], and once [config.model_name] is read and the
    tokenizer is loaded, the lookup of [self.tokenize_data] raises
    AttributeError, before the split file is read. *)
Theorem load_dataloader_raises (config : Py.obj) (split : string) :
  raises (Data.load_dataloader load_tokenizer fs config split)
  /\ raises (Data.Dataset_init load_tokenizer fs config split)
  /\ Data.Dataset_getattr "tokenize_data" = Raise AttributeError
  /\ Data.Dataset_getattr "tokenize_dataset" = Ok Data.M_tokenize_dataset
  /\ (is_Some (config !! "model_name") ->
      (exists tok, load_tokenizer config = Ok tok) ->
      Data.Dataset_init load_tokenizer fs config split = Raise AttributeError).
Proof.
  repeat split.
  - unfold Data.load_dataloader, raises.
    destruct (Py.getattr config "pad_idx"); cbn [mbind result_bind]; [| eauto].
    destruct (Py.getattr config "eos_idx"); cbn [mbind result_bind]; [| eauto].
    destruct (Dataset_init_raises config split) as [e ->]. eauto.
  - apply Dataset_init_raises.
  - intros [v Hv] [tok Htok]. unfold Data.Dataset_init, Py.getattr.
    rewrite Hv, Htok. reflexivity.
Qed.
End LoadData.

Lemma load_dataloader_raises_witness :
  Data.Dataset_init Examples.toy_tokenizer Examples.data_files
    Examples.data_config "train" = Raise AttributeError
  /\ raises (Data.load_dataloader Examples.toy_tokenizer Examples.data_files
               Examples.data_config "train").
Proof.
  pose proof (load_dataloader_raises Examples.toy_tokenizer Examples.data_files
                Examples.data_config "train") as (Hload & _ & _ & _ & Hinit).
  split; [| exact Hload].
  apply Hinit.
  - exists (Py.VStr "fused"). reflexivity.
  - exists "tokenizer". reflexivity.
Defined.

(** X29. On a [Config] of run.py the first attribute read of
    [load_dataloader] already fails: [Config] defines neither [pad_idx]
    nor [eos_idx]. *)
Lemma load_dataloader_Config {Tok : Type} (load_tokenizer : Py.obj -> result Tok)
    (fs : Data.filesystem) (use_cuda : bool) (task mode model split : string) :
  Data.load_dataloader load_tokenizer fs (Run.Config use_cuda task mode model) split
  = Raise AttributeError.
Proof.
  unfold Data.load_dataloader, Py.getattr, Run.Config. simplify_map_eq. reflexivity.
Qed.

Lemma dec_mask_entry_witness :
  let self := Examples.probe_model in
  let x := of_rows 0 4 [[5; 6; 0; 7]] in
  exists m, FusedModel.dec_mask self x = Ok m
    /\ shape m = [1%nat; 1%nat; 4%nat; 4%nat]
    /\ (at_ m [0; 0; 3; 1]%nat = true
        <-> (1 <= 3)%nat /\ at_ x [0; 1]%nat <> FusedModel.pad_id self)
    /\ (at_ m [0; 0; 3; 2]%nat = true
        <-> (2 <= 3)%nat /\ at_ x [0; 2]%nat <> FusedModel.pad_id self).
Proof.
  cbn zeta.
  destruct (dec_mask_entry Examples.probe_model (of_rows 0 4 [[5; 6; 0; 7]])
              1%nat 4%nat eq_refl) as (m & Hm & Hs & Hat).
  exists m. split; [exact Hm |]. split; [exact Hs |].
  split; apply Hat; lia.
Defined.

Lemma shift_right_row_witness :
  let self := Examples.probe_model in
  exists shifted, FusedModel.shift_right self Examples.trg_ids = Ok shifted
    /\ shape shifted = [1%nat; 3%nat]
    /\ row shifted 0 = [0; 5; 6]
    /\ tail (row shifted 0) = removelast (row Examples.trg_ids 0).
Proof.
  cbn zeta.
  destruct (shift_right_row Examples.probe_model Examples.trg_ids 1%nat 2%nat eq_refl)
    as (shifted & Hsh & Hshape & Hrow).
  exists shifted. split; [exact Hsh |]. split; [exact Hshape |].
  destruct (Hrow 0%nat ltac:(lia)) as [Hr Ht]. split; [exact Hr | exact Ht].
Defined.

(** * Further properties of the code *)

(** ** setup.py *)

Section SetupProcess.
Context {Str : Type}.
Variable len : Str -> nat.
Variable lower : Str -> Str.
Variable tokenizer : Str -> Setup.encoding.

Lemma process_step_keys (elem : gmap string Str) :
  Setup.has_keys elem ->
  exists en de, elem !! "en" = Some en /\ elem !! "de" = Some de.
Proof. intros [[en Hen] [de Hde]]. eauto. Qed.

(** The source's filter is the one of the properties. *)
Lemma condition_bounds (en_seq de_seq : Str) :
  Setup.condition len en_seq de_seq
  = bool_decide (10 <= Z.of_nat (len en_seq) <= 300
                 /\ 10 <= Z.of_nat (len de_seq) <= 300
                 /\ - 50 < Z.of_nat (len en_seq) - Z.of_nat (len de_seq) < 50).
Proof.
  unfold Setup.condition, Setup.min_len, Setup.max_len, Setup.max_diff.
  destruct (bool_decide_reflect
              (10 <= Z.of_nat (len en_seq) <= 300
               /\ 10 <= Z.of_nat (len de_seq) <= 300
               /\ - 50 < Z.of_nat (len en_seq) - Z.of_nat (len de_seq) < 50))
    as [Hin | Hout].
  - rewrite !andb_true_iff, !Z.leb_le, Z.ltb_lt. lia.
  - apply not_true_is_false. rewrite !andb_true_iff, !Z.leb_le, Z.ltb_lt. lia.
Qed.

Lemma passes_condition (elem : gmap string Str) (en de : Str) :
  elem !! "en" = Some en -> elem !! "de" = Some de ->
  Setup.passes len lower elem = Setup.condition len (lower en) (lower de).
Proof.
  intros Hen Hde. unfold Setup.passes. rewrite Hen, Hde. cbn zeta.
  by rewrite condition_bounds.
Qed.

Lemma record_of_temp_dict (elem : gmap string Str) (en de : Str) :
  elem !! "en" = Some en -> elem !! "de" = Some de ->
  Setup.record_of lower tokenizer elem = Setup.temp_dict tokenizer (lower en) (lower de).
Proof.
  intros Hen Hde. unfold Setup.record_of, Setup.temp_dict. rewrite Hen, Hde.
  apply map_eq. intros key. cbn [list_to_map foldr fst snd uncurry].
  repeat (rewrite lookup_insert; case_decide; subst; try reflexivity);
    simplify_map_eq; reflexivity.
Qed.

(** The loop over a prefix of complete elements that does not reach the
    cap. *)
Lemma process_loop_prefix (pre : list (gmap string Str)) :
  forall (tail : list (gmap string Str)) (volumn volumn_cnt : Z)
         (acc : list Setup.entry),
    Forall Setup.has_keys pre ->
    volumn <= volumn_cnt
    \/ volumn_cnt + Z.of_nat (length (List.filter (Setup.passes len lower) pre))
       < volumn ->
    Setup.process_loop len lower tokenizer (pre ++ tail) volumn volumn_cnt acc
    = Setup.process_loop len lower tokenizer tail volumn
        (volumn_cnt + Z.of_nat (length (List.filter (Setup.passes len lower) pre)))
        (acc ++ (Setup.record_of lower tokenizer
                   <$> List.filter (Setup.passes len lower) pre)).
Proof.
  induction pre as [| elem pre IH]; intros tail volumn cnt acc Hkeys Hcap.
  - cbn. by rewrite Z.add_0_r, app_nil_r.
  - apply Forall_cons in Hkeys as [Helem Hpre].
    destruct (process_step_keys elem Helem) as (en & de & Hen & Hde).
    cbn [app Setup.process_loop List.filter] in *. unfold Py.getitem.
    rewrite Hen, Hde. cbn [mbind result_bind].
    rewrite (passes_condition elem en de Hen Hde) in *.
    destruct (Setup.condition len (lower en) (lower de)) eqn:Hc.
    + cbn [length fmap list_fmap] in *.
      rewrite (record_of_temp_dict elem en de Hen Hde).
      destruct (Z.eqb_spec (cnt + 1) volumn) as [Heq | Hne]; [lia |].
      rewrite IH by (auto; lia). rewrite <- app_assoc. cbn. f_equal. lia.
    + apply IH; auto.
Qed.

(** The loop below the cap: what is appended is the records of the first
    [volumn - volumn_cnt] elements that pass the filter. *)
Lemma process_loop_capped (orig_data : list (gmap string Str)) :
  forall (volumn volumn_cnt : Z) (acc : list Setup.entry),
    Forall Setup.has_keys orig_data ->
    0 <= volumn_cnt < volumn ->
    Setup.process_loop len lower tokenizer orig_data volumn volumn_cnt acc
    = Ok (acc ++ (Setup.record_of lower tokenizer
                    <$> take (Z.to_nat (volumn - volumn_cnt))
                             (List.filter (Setup.passes len lower) orig_data))).
Proof.
  induction orig_data as [| elem rest IH]; intros volumn cnt acc Hkeys Hcnt.
  - cbn. rewrite take_nil. cbn. by rewrite app_nil_r.
  - apply Forall_cons in Hkeys as [Helem Hrest].
    destruct (process_step_keys elem Helem) as (en & de & Hen & Hde).
    cbn [Setup.process_loop List.filter]. unfold Py.getitem.
    rewrite Hen, Hde. cbn [mbind result_bind].
    rewrite (passes_condition elem en de Hen Hde).
    destruct (Setup.condition len (lower en) (lower de)) eqn:Hc.
    + replace (Z.to_nat (volumn - cnt)) with (S (Z.to_nat (volumn - (cnt + 1)))) by lia.
      cbn [take fmap list_fmap].
      rewrite (record_of_temp_dict elem en de Hen Hde).
      destruct (Z.eqb_spec (cnt + 1) volumn) as [<- | Hne].
      * rewrite Z.sub_diag. cbn. reflexivity.
      * rewrite IH by (auto; lia). by rewrite <- app_assoc.
    + apply IH; auto.
Qed.

(** X1. On a corpus whose elements all have the keys [en] and [de], and
    for a positive [volumn], [process] returns the records of the first
    [volumn] elements that pass the length filter (both lower-cased texts
    of 10 to 300 characters, lengths less than 50 apart), in corpus
    order; so it returns at most [volumn] records. *)
Theorem process_take_filter (orig_data : list (gmap string Str)) (volumn : Z) :
  Forall Setup.has_keys orig_data ->
  0 < volumn ->
  exists out,
    Setup.process len lower tokenizer orig_data volumn = Ok out
    /\ out = Setup.record_of lower tokenizer
               <$> take (Z.to_nat volumn)
                        (List.filter (Setup.passes len lower) orig_data)
    /\ (Z.of_nat (length out) <= volumn).
Proof.
  intros Hkeys Hv. eexists. split; [| split; [reflexivity |]].
  - unfold Setup.process. rewrite process_loop_capped by (auto; lia).
    by rewrite Z.sub_0_r.
  - rewrite length_fmap, length_take. lia.
Qed.

(** X2. For [volumn <= 0] the counter never equals [volumn]: [process]
    visits the whole corpus and returns the records of all elements that
    pass the length filter, however many they are. *)
Theorem process_no_cap (orig_data : list (gmap string Str)) (volumn : Z) :
  Forall Setup.has_keys orig_data ->
  volumn <= 0 ->
  Setup.process len lower tokenizer orig_data volumn
  = Ok (Setup.record_of lower tokenizer
          <$> List.filter (Setup.passes len lower) orig_data).
Proof.
  intros Hkeys Hv. unfold Setup.process.
  rewrite <- (app_nil_r orig_data) at 1.
  rewrite process_loop_prefix by (auto; lia). reflexivity.
Qed.

(** X3. When the loop of [process] reaches an element without the key
    [en] or [de] before [volumn] records are collected, [process] raises
    KeyError and returns nothing of what it collected. *)
Theorem process_KeyError (pre rest : list (gmap string Str))
    (elem : gmap string Str) (volumn : Z) :
  Forall Setup.has_keys pre ->
  ~ Setup.has_keys elem ->
  volumn <= 0
  \/ Z.of_nat (length (List.filter (Setup.passes len lower) pre)) < volumn ->
  Setup.process len lower tokenizer (pre ++ elem :: rest) volumn = Raise KeyError.
Proof.
  intros Hpre Helem Hcap. unfold Setup.process.
  rewrite process_loop_prefix by (auto; lia).
  cbn [Setup.process_loop]. unfold Py.getitem.
  destruct (elem !! "en") as [en |] eqn:Hen; [| reflexivity].
  destruct (elem !! "de") as [de |] eqn:Hde; [| reflexivity].
  exfalso. apply Helem. split; eauto.
Qed.
End SetupProcess.

Lemma process_take_filter_witness :
  exists out,
    Setup.process String.length Py.lower Examples.length_tokenizer Examples.corpus 5
    = Ok out
    /\ out = [ {["en_ids" := [16]; "en_mask" := [1];
                 "de_ids" := [17]; "de_mask" := [1]]} ]
    /\ (Z.of_nat (length out) <= 5).
Proof.
  destruct (process_take_filter String.length Py.lower Examples.length_tokenizer
              Examples.corpus 5) as (out & Hout & -> & Hlen).
  - repeat constructor; vm_compute; eauto.
  - lia.
  - eexists. split; [exact Hout |]. split; [| exact Hlen].
    vm_compute. reflexivity.
Defined.

Lemma process_no_cap_witness :
  Setup.process String.length Py.lower Examples.length_tokenizer Examples.corpus 0
  = Ok (Setup.record_of Py.lower Examples.length_tokenizer
          <$> List.filter (Setup.passes String.length Py.lower) Examples.corpus).
Proof.
  apply (process_no_cap String.length Py.lower Examples.length_tokenizer
           Examples.corpus 0).
  - repeat constructor; vm_compute; eauto.
  - lia.
Defined.

Lemma process_KeyError_witness :
  Setup.process String.length Py.lower Examples.length_tokenizer
    Examples.broken_corpus 5 = Raise KeyError.
Proof.
  apply (process_KeyError String.length Py.lower Examples.length_tokenizer
           Examples.corpus [] {["en" := "no translation here"]} 5).
  - repeat constructor; vm_compute; eauto.
  - intros [_ [de Hde]]. vm_compute in Hde. discriminate Hde.
  - right. vm_compute. reflexivity.
Defined.

(** ** Slices and [save_data] *)

Section Slices.
Context {A : Type}.

Lemma slice_to (l : list A) (k : Z) :
  k < 0 -> Py.slice None (Some k) l = take (length l - Z.to_nat (- k)) l.
Proof.
  intros Hk. unfold Py.slice, Py.clamp. cbn.
  destruct (Z.ltb_spec k 0); [| lia].
  rewrite drop_0, Nat.sub_0_r. f_equal. lia.
Qed.

Lemma slice_from (l : list A) (k : Z) :
  k < 0 -> Py.slice (Some k) None l = drop (length l - Z.to_nat (- k)) l.
Proof.
  intros Hk. unfold Py.slice, Py.clamp. cbn.
  destruct (Z.ltb_spec k 0); [| lia].
  replace (Z.to_nat (Z.max (k + Z.of_nat (length l)) 0))
    with (length l - Z.to_nat (- k))%nat by lia.
  apply take_ge. rewrite length_drop. lia.
Qed.

Lemma slice_between (l : list A) (j k : Z) :
  j <= k < 0 ->
  Py.slice (Some j) (Some k) l
  = take (Z.to_nat (- j) - Z.to_nat (- k))
         (drop (length l - Z.to_nat (- j)) (take (length l - Z.to_nat (- k)) l)).
Proof.
  intros Hjk. unfold Py.slice, Py.clamp. cbn.
  destruct (Z.ltb_spec j 0); [| lia]. destruct (Z.ltb_spec k 0); [| lia].
  replace (Z.to_nat (Z.max (j + Z.of_nat (length l)) 0))
    with (length l - Z.to_nat (- j))%nat by lia.
  replace (Z.to_nat (Z.max (k + Z.of_nat (length l)) 0))
    with (length l - Z.to_nat (- k))%nat by lia.
  set (a := (length l - Z.to_nat (- j))%nat).
  set (b := (length l - Z.to_nat (- k))%nat).
  assert (Hab : (a <= b)%nat) by (unfold a, b; lia).
  rewrite (take_drop_commute l (b - a) a).
  replace (a + (b - a))%nat with b by lia.
  symmetry. apply take_ge. rewrite length_drop, length_take. unfold a, b. lia.
Qed.

(** X4. The three slices of [save_data] partition the data in order,
    whatever its length: the test split is the last 1000 elements (or
    all), the validation split the up to 3000 elements before them, and
    the training split what remains at the front. *)
Theorem save_data_splits_partition (data_obj : list A) :
  Setup.split_train data_obj ++ Setup.split_valid data_obj ++ Setup.split_test data_obj
  = data_obj
  /\ length (Setup.split_test data_obj) = Nat.min (length data_obj) 1000
  /\ length (Setup.split_valid data_obj) = Nat.min (length data_obj - 1000) 3000
  /\ length (Setup.split_train data_obj) = (length data_obj - 4000)%nat.
Proof.
  unfold Setup.split_train, Setup.split_valid, Setup.split_test.
  rewrite slice_to, slice_from, slice_between by lia.
  set (n := length data_obj).
  replace (Z.to_nat (- -4000)) with 4000%nat by lia.
  replace (Z.to_nat (- -1000)) with 1000%nat by lia.
  assert (Hvalid : take (4000 - 1000) (drop (n - 4000) (take (n - 1000) data_obj))
                   = drop (n - 4000) (take (n - 1000) data_obj)).
  { apply take_ge. rewrite length_drop, length_take. lia. }
  rewrite Hvalid. repeat split.
  - rewrite <- (take_drop (n - 1000) data_obj) at 4.
    rewrite app_assoc. f_equal.
    rewrite <- (take_drop (n - 4000) (take (n - 1000) data_obj)) at 2.
    f_equal. rewrite take_take. f_equal. lia.
  - rewrite length_drop. lia.
  - rewrite length_drop, length_take. lia.
  - rewrite length_take. lia.
Qed.
End Slices.

(** X5. When the directory [data] exists, [save_data] succeeds and leaves
    the three splits in [data/train.json], [data/valid.json] and
    [data/test.json], every other file and the directories unchanged;
    when it does not exist, the first [open] raises FileNotFoundError. *)
Theorem save_data_writes_splits (fs : Setup.files) (data_obj : list Setup.entry) :
  ("data" ∈ Setup.dirs fs ->
   exists fs',
     Setup.save_data fs data_obj = Ok fs'
     /\ Setup.dirs fs' = Setup.dirs fs
     /\ Setup.contents fs' !! "data/train.json" = Some (Setup.split_train data_obj)
     /\ Setup.contents fs' !! "data/valid.json" = Some (Setup.split_valid data_obj)
     /\ Setup.contents fs' !! "data/test.json" = Some (Setup.split_test data_obj)
     /\ forall path,
          path ∉ ["data/train.json"; "data/valid.json"; "data/test.json"] ->
          Setup.contents fs' !! path = Setup.contents fs !! path)
  /\ ("data" ∉ Setup.dirs fs ->
      Setup.save_data fs data_obj = Raise FileNotFoundError).
Proof.
  split; intros Hdir.
  - unfold Setup.save_data. cbn [zip zip_with Setup.dump_all].
    unfold Setup.dump. cbn [Setup.dirs Setup.contents String.append].
    repeat (destruct (decide ("data" ∈ Setup.dirs fs)) as [_ | Hno];
            [| by destruct Hno];
            destruct (decide (is_Some _)) as [_ | Hno];
            [| exfalso; apply Hno; rewrite lookup_insert_eq; eauto];
            cbn [mbind result_bind Setup.dirs Setup.contents]).
    eexists. split; [reflexivity |]. cbn [Setup.dirs Setup.contents].
    split; [reflexivity |].
    split; [by simplify_map_eq |]. split; [by simplify_map_eq |].
    split; [by simplify_map_eq |].
    intros path Hpath.
    rewrite !lookup_insert_ne; [reflexivity | | |];
      intros <-; apply Hpath; set_solver.
  - unfold Setup.save_data. cbn [zip zip_with Setup.dump_all].
    unfold Setup.dump. destruct (decide _) as [Hin | _]; [by destruct Hdir |].
    reflexivity.
Qed.

Lemma save_data_writes_splits_witness :
  exists fs',
    Setup.save_data Examples.data_dir Examples.two_entries = Ok fs'
    /\ Setup.contents fs' !! "data/test.json" = Some Examples.two_entries
    /\ Setup.contents fs' !! "data/train.json" = Some [].
Proof.
  destruct (proj1 (save_data_writes_splits Examples.data_dir Examples.two_entries))
    as (fs' & Hsave & _ & Htrain & _ & Htest & _).
  - vm_compute. set_solver.
  - exists fs'. split; [exact Hsave |]. split; [exact Htest | exact Htrain].
Defined.

(** ** modules/data.py *)

Section Tokenize.
Variable Encode : string -> list Z.

(** X6. [tokenize_dataset] succeeds exactly on data whose examples all
    have the keys [src] and [trg]: then it returns, in order and one per
    example, the dictionary of the two encoded sequences; otherwise it
    raises KeyError. *)
Theorem tokenize_dataset_complete (data : list Data.example) :
  (Forall Data.complete data ->
   Data.tokenize_dataset Encode data = Ok (Data.encoded Encode <$> data))
  /\ (~ Forall Data.complete data ->
      Data.tokenize_dataset Encode data = Raise KeyError).
Proof.
  induction data as [| elem data [IHok IHerr]].
  - split; [reflexivity |]. intros Hno. destruct Hno. constructor.
  - cbn [Data.tokenize_dataset]. unfold Py.getitem.
    destruct (elem !! "src") as [src |] eqn:Hsrc.
    2: { split; [| reflexivity]. intros Hall.
         apply Forall_cons in Hall as [[[? Hs] _] _]. congruence. }
    destruct (elem !! "trg") as [trg |] eqn:Htrg.
    2: { split; [| reflexivity]. intros Hall.
         apply Forall_cons in Hall as [[_ [? Ht]] _]. congruence. }
    cbn [mbind result_bind]. split.
    + intros Hall. apply Forall_cons in Hall as [_ Hall].
      rewrite (IHok Hall). cbn. unfold Data.encoded. by rewrite Hsrc, Htrg.
    + intros Hno. rewrite IHerr; [reflexivity |].
      intros Hall. apply Hno. constructor; [| exact Hall].
      split; eauto.
Qed.
End Tokenize.

Lemma tokenize_dataset_complete_witness :
  Data.tokenize_dataset Examples.length_Encode Examples.raw_examples
  = Ok (Data.encoded Examples.length_Encode <$> Examples.raw_examples)
  /\ Data.tokenize_dataset Examples.length_Encode
       (Examples.raw_examples ++ [ {["src" := "ohne ziel"]} ])
     = Raise KeyError.
Proof.
  split.
  - apply (proj1 (tokenize_dataset_complete Examples.length_Encode
                    Examples.raw_examples)).
    repeat constructor; vm_compute; eauto.
  - apply (proj2 (tokenize_dataset_complete Examples.length_Encode
                    (Examples.raw_examples ++ [ {["src" := "ohne ziel"]} ]))).
    intros Hall. apply Forall_app in Hall as [_ Hlast].
    apply Forall_cons in Hlast as [[_ [trg Htrg]] _].
    vm_compute in Htrg. discriminate Htrg.
Defined.

Section Collate.
Variables pad_idx eos_idx : Z.

Lemma max_length_ge (seqs : list (list Z)) (seq : list Z) :
  seq ∈ seqs -> (length seq <= Data.max_length seqs)%nat.
Proof.
  unfold Data.max_length. induction 1 as [seq seqs | seq other seqs _ IH]; cbn; lia.
Qed.

(** The rows of a padded batch. *)
Lemma pad_sequence_rows (seqs : list (list Z)) (pad : Z) :
  seqs <> [] ->
  exists rows,
    Data.pad_sequence seqs pad = Ok rows
    /\ length rows = length seqs
    /\ Forall (fun r => length r = Data.max_length seqs) rows
    /\ forall i seq, seqs !! i = Some seq ->
         rows !! i = Some (seq ++ replicate (Data.max_length seqs - length seq) pad).
Proof.
  intros Hne. unfold Data.pad_sequence.
  destruct seqs as [| s0 seqs']; [done |].
  set (seqs := s0 :: seqs') in *.
  eexists. split; [reflexivity |]. split; [by rewrite length_fmap |]. split.
  - apply Forall_fmap, Forall_forall. intros seq Hin. cbv [compose].
    rewrite length_app, length_replicate.
    pose proof (max_length_ge seqs seq Hin). lia.
  - intros i seq Hi. by rewrite list_lookup_fmap, Hi.
Qed.

(** X7. [_collate_fn] raises on an empty batch ([pad_sequence] refuses
    an empty list); on a batch of [n > 0] items it returns [n] source
    rows, all as long as the longest source, and [n] target rows, all one
    longer than the longest target. *)
Theorem collate_fn_shapes (items : list (list Z * list Z)) :
  (items = [] -> raises (Data._collate_fn pad_idx eos_idx items))
  /\ (items <> [] ->
      exists b,
        Data._collate_fn pad_idx eos_idx items = Ok b
        /\ length (Data.src b) = length items
        /\ length (Data.trg b) = length items
        /\ Forall (fun r => length r = Data.max_length (fst <$> items)) (Data.src b)
        /\ Forall (fun r => length r = S (Data.max_length (snd <$> items)))
                  (Data.trg b)).
Proof.
  split; [intros ->; by eexists |].
  intros Hne. unfold Data._collate_fn.
  destruct (pad_sequence_rows (fst <$> items) pad_idx) as (srows & -> & Hsl & Hsr & _).
  { by destruct items. }
  destruct (pad_sequence_rows (snd <$> items) pad_idx) as (trows & -> & Htl & Htr & _).
  { by destruct items. }
  cbn [mbind result_bind]. unfold Data.column_stack.
  rewrite length_fmap in Hsl, Htl.
  rewrite Htl, length_replicate. rewrite length_fmap, Nat.eqb_refl.
  cbn [mbind result_bind]. eexists. split; [reflexivity |]. cbn [Data.src Data.trg].
  split; [exact Hsl |]. split.
  { rewrite length_zip_with, length_replicate. lia. }
  split; [exact Hsr |].
  apply Forall_forall. intros r Hr.
  apply list_elem_of_lookup in Hr as [i Hi].
  apply lookup_zip_with_Some in Hi as (row & e & -> & Hrow & _).
  rewrite length_app. cbn.
  rewrite Forall_forall in Htr.
  rewrite (Htr row); [lia |]. apply list_elem_of_lookup. eauto.
Qed.

(** X8. Row [i] of the collated source is the [i]-th source sequence
    followed by padding; row [i] of the collated target is the [i]-th
    target sequence, then the padding, then [eos_idx]: the end-of-sequence
    id is the last column of every row, after the padding of a shorter
    target. *)
Theorem collate_fn_rows (items : list (list Z * list Z)) (b : Data.batch)
    (i : nat) (s t : list Z) :
  Data._collate_fn pad_idx eos_idx items = Ok b ->
  items !! i = Some (s, t) ->
  Data.src b !! i
  = Some (s ++ replicate (Data.max_length (fst <$> items) - length s) pad_idx)
  /\ Data.trg b !! i
     = Some (t ++ replicate (Data.max_length (snd <$> items) - length t) pad_idx
               ++ [eos_idx]).
Proof.
  intros Hb Hi.
  assert (Hne : items <> []) by (intros ->; discriminate).
  unfold Data._collate_fn in Hb.
  destruct (pad_sequence_rows (fst <$> items) pad_idx) as (srows & Hs & _ & _ & Hsrow).
  { by destruct items. }
  destruct (pad_sequence_rows (snd <$> items) pad_idx) as (trows & Ht & Htl & _ & Htrow).
  { by destruct items. }
  rewrite Hs, Ht in Hb. cbn [mbind result_bind] in Hb.
  unfold Data.column_stack in Hb.
  rewrite Htl, length_replicate, !length_fmap, Nat.eqb_refl in Hb.
  cbn [mbind result_bind] in Hb. injection Hb as <-. cbn [Data.src Data.trg].
  split.
  - apply Hsrow. by rewrite list_lookup_fmap, Hi.
  - apply lookup_zip_with_Some.
    exists (t ++ replicate (Data.max_length (snd <$> items) - length t) pad_idx), eos_idx.
    split; [by rewrite <- app_assoc |]. split.
    + apply Htrow. by rewrite list_lookup_fmap, Hi.
    + apply lookup_replicate_2. apply lookup_lt_Some in Hi. exact Hi.
Qed.
End Collate.

Lemma collate_fn_shapes_witness :
  exists b,
    Data._collate_fn 0 102 Examples.items = Ok b
    /\ length (Data.src b) = 2%nat
    /\ Forall (fun r => length r = 3%nat) (Data.src b)
    /\ Forall (fun r => length r = 5%nat) (Data.trg b).
Proof.
  destruct (proj2 (collate_fn_shapes 0 102 Examples.items))
    as (b & Hb & Hs & _ & Hsr & Htr); [discriminate |].
  exists b. split; [exact Hb |]. split; [exact Hs |]. split; [exact Hsr | exact Htr].
Defined.

Lemma collate_fn_rows_witness :
  exists b,
    Data._collate_fn 0 102 Examples.items = Ok b
    /\ Data.src b !! 1%nat = Some [14; 0; 0]
    /\ Data.trg b !! 0%nat = Some [21; 22; 0; 0; 102].
Proof.
  eexists. split; [reflexivity |]. split.
  - apply (proj1 (collate_fn_rows 0 102 Examples.items _ 1%nat [14] [23; 24; 25; 26]
                    eq_refl eq_refl)).
  - apply (proj2 (collate_fn_rows 0 102 Examples.items _ 0%nat [11; 12; 13] [21; 22]
                    eq_refl eq_refl)).
Defined.

Section Getitem.
Variable data : list Data.tokenized.

Lemma list_getitem_nat (i : nat) (elem : Data.tokenized) :
  data !! i = Some elem -> Data.list_getitem data (Z.of_nat i) = Ok elem.
Proof.
  intros Hi. unfold Data.list_getitem.
  destruct (Z.ltb_spec (Z.of_nat i) 0); [lia |].
  destruct (Z.ltb_spec (Z.of_nat i) 0); [lia |].
  by rewrite Nat2Z.id, Hi.
Qed.

Lemma list_getitem_negative (i : nat) (elem : Data.tokenized) :
  data !! i = Some elem ->
  Data.list_getitem data (Z.of_nat i - Z.of_nat (length data)) = Ok elem.
Proof.
  intros Hi. pose proof (lookup_lt_Some _ _ _ Hi) as Hlt.
  unfold Data.list_getitem.
  destruct (Z.ltb_spec (Z.of_nat i - Z.of_nat (length data)) 0); [| lia].
  replace (Z.of_nat i - Z.of_nat (length data) + Z.of_nat (length data))
    with (Z.of_nat i) by lia.
  destruct (Z.ltb_spec (Z.of_nat i) 0); [lia |].
  by rewrite Nat2Z.id, Hi.
Qed.

Lemma list_getitem_out_of_range (idx : Z) :
  Z.of_nat (length data) <= idx \/ idx < - Z.of_nat (length data) ->
  Data.list_getitem data idx = Raise IndexError.
Proof.
  intros Hout. unfold Data.list_getitem.
  destruct (Z.ltb_spec idx 0).
  - destruct (Z.ltb_spec (idx + Z.of_nat (length data)) 0); [reflexivity | lia].
  - destruct (Z.ltb_spec idx 0); [lia |].
    rewrite lookup_ge_None_2; [reflexivity | lia].
Qed.

(** X9. For an index [i] inside the data whose element holds the source
    [s] and the target [t]: [__getitem__] returns [(s, t)], except for the
    model name [transformer], for which the target comes without its last
    token; the index [i - len] names the same item; an index outside
    [-len, len) raises IndexError. *)
Theorem getitem_pair (model_name : Py.val) (i : nat) (elem : Data.tokenized)
    (s t : list Z) :
  data !! i = Some elem ->
  elem !! "src" = Some s ->
  elem !! "trg" = Some t ->
  Data.getitem model_name data (Z.of_nat i)
  = Ok (s, if decide (model_name = Py.VStr "transformer") then removelast t else t)
  /\ Data.getitem model_name data (Z.of_nat i - Z.of_nat (length data))
     = Data.getitem model_name data (Z.of_nat i)
  /\ forall idx,
       Z.of_nat (length data) <= idx \/ idx < - Z.of_nat (length data) ->
       Data.getitem model_name data idx = Raise IndexError.
Proof.
  intros Hi Hs Ht.
  assert (Hpos : Data.getitem model_name data (Z.of_nat i)
                 = Ok (s, if decide (model_name = Py.VStr "transformer")
                          then removelast t else t)).
  { unfold Data.getitem. rewrite (list_getitem_nat i elem Hi).
    unfold Py.getitem. cbn [mbind result_bind]. rewrite Hs, Ht.
    cbn [mbind result_bind].
    destruct (decide _); cbn [mbind result_bind]; [| reflexivity].
    rewrite slice_to by lia. do 2 f_equal.
    rewrite removelast_firstn_len. f_equal. lia. }
  split; [exact Hpos |]. split.
  - rewrite Hpos. unfold Data.getitem. rewrite (list_getitem_negative i elem Hi).
    unfold Py.getitem. cbn [mbind result_bind]. rewrite Hs, Ht.
    cbn [mbind result_bind].
    destruct (decide _); cbn [mbind result_bind]; [| reflexivity].
    rewrite slice_to by lia. do 2 f_equal.
    rewrite removelast_firstn_len. f_equal. lia.
  - intros idx Hout. unfold Data.getitem.
    by rewrite (list_getitem_out_of_range idx Hout).
Qed.
End Getitem.

Lemma getitem_pair_witness :
  Data.getitem (Py.VStr "transformer") Examples.tokenized_data 0
  = Ok ([11; 12; 13], [21; 22])
  /\ Data.getitem (Py.VStr "fused") Examples.tokenized_data 1 = Ok ([14], [23; 102]).
Proof.
  split.
  - apply (proj1 (getitem_pair Examples.tokenized_data (Py.VStr "transformer") 0%nat
                    _ [11; 12; 13] [21; 22; 102] eq_refl eq_refl eq_refl)).
  - apply (proj1 (getitem_pair Examples.tokenized_data (Py.VStr "fused") 1%nat
                    _ [14] [23; 102] eq_refl eq_refl eq_refl)).
Defined.

(** ** run.py *)

Lemma substring_whole (s : string) : String.substring 0 (String.length s) s = s.
Proof. induction s as [| c s IH]; cbn; [reflexivity | by rewrite IH]. Qed.

(** X10. A [Config] splits the task name into [src], its first two
    characters (or all of a shorter name), and [trg], the rest: together
    they spell the task.  Its checkpoint path is [ckpt/<task>.pt]; its
    device is the CPU in mode [inference] and the device type otherwise;
    and it defines none of [pad_id], [pad_idx], [eos_idx], [max_len]. *)
Theorem Config_contract (use_cuda : bool) (task mode model : string) :
  let config := Run.Config use_cuda task mode model in
  (exists s t, config !! "src" = Some (Py.VStr s)
               /\ config !! "trg" = Some (Py.VStr t)
               /\ s +:+ t = task
               /\ String.length s = Nat.min 2 (String.length task))
  /\ config !! "ckpt" = Some (Py.VStr ("ckpt/" +:+ task +:+ ".pt"))
  /\ (mode = "inference" -> config !! "device" = Some (Py.VStr "cpu"))
  /\ (mode <> "inference" -> config !! "device" = config !! "device_type")
  /\ config !! "pad_id" = None /\ config !! "pad_idx" = None
  /\ config !! "eos_idx" = None /\ config !! "max_len" = None.
Proof.
  cbn zeta. unfold Run.Config. repeat split; try (by simplify_map_eq).
  - exists (String.substring 0 2 task),
           (String.substring 2 (String.length task - 2) task).
    split; [by simplify_map_eq |]. split; [by simplify_map_eq |].
    destruct task as [| c1 [| c2 rest]]; cbn; try done.
    assert (Hz : forall r, String.substring 0 0 r = "") by (intros []; reflexivity).
    rewrite Hz, Nat.sub_0_r, substring_whole. done.
  - intros ->. by simplify_map_eq.
  - intros Hmode. simplify_map_eq.
    destruct (String.eqb_spec mode "inference"); [done | reflexivity].
Qed.

Lemma Config_contract_witness :
  Run.Config true "ende" "inference" "fused" !! "device" = Some (Py.VStr "cpu")
  /\ Run.Config true "ende" "test" "fused" !! "device"
     = Run.Config true "ende" "test" "fused" !! "device_type".
Proof.
  split.
  - apply (Config_contract true "ende" "inference" "fused"). reflexivity.
  - apply (Config_contract true "ende" "test" "fused"). discriminate.
Defined.

Section LoadModelErrors.
Variable cs : Run.constructors.
Variable fs : Run.filesystem.
Variable config : Py.obj.
Variables name mode ckpt : string.
Variable dev : Py.val.

Hypothesis Hname : config !! "model_name" = Some (Py.VStr name).
Hypothesis Hmode : config !! "mode" = Some (Py.VStr mode).
Hypothesis Hckpt : config !! "ckpt" = Some (Py.VStr ckpt).
Hypothesis Hdev : config !! "device" = Some dev.

Lemma new_model_unknown :
  name ∉ ["simple"; "fused"; "generation"] -> Run.new_model cs config = Ok None.
Proof.
  intros Hno. unfold Run.new_model, Py.getattr. rewrite Hname.
  cbn [mbind result_bind].
  repeat (destruct (decide _) as [Heq | _];
          [exfalso; injection Heq as ->; apply Hno; set_solver |]).
  reflexivity.
Qed.

(** X11. For a model name other than [simple], [fused] and [generation]
    no model is constructed and [load_model] returns none: in mode
    [train] it raises UnboundLocalError where the model is first used, in
    any other mode AssertionError when the checkpoint is missing, KeyError
    when the checkpoint has no [model_state_dict], and UnboundLocalError
    otherwise. *)
Theorem load_model_unknown_name :
  name ∉ ["simple"; "fused"; "generation"] ->
  (mode = "train" -> Run.load_model cs fs config = Raise UnboundLocalError)
  /\ (mode <> "train" -> fs !! ckpt = None ->
      Run.load_model cs fs config = Raise AssertionError)
  /\ (mode <> "train" ->
      forall mapping, fs !! ckpt = Some mapping ->
        Run.load_model cs fs config
        = Raise (match mapping !! "model_state_dict" with
                 | Some _ => UnboundLocalError
                 | None => KeyError
                 end)).
Proof.
  intros Hno. unfold Run.load_model, Py.getattr.
  rewrite (new_model_unknown Hno), Hname, Hmode. cbn [mbind result_bind Py.upper].
  repeat split.
  - intros ->. destruct (decide _) as [Hne | _]; [by destruct Hne |]. reflexivity.
  - intros Hne Hfs. destruct (decide _) as [_ | Heq].
    2: { exfalso. apply Heq. congruence. }
    rewrite Hckpt. cbn. by rewrite Hfs.
  - intros Hne mapping Hfs. destruct (decide _) as [_ | Heq].
    2: { exfalso. apply Heq. congruence. }
    rewrite Hckpt. cbn. rewrite Hfs, Hdev. cbn.
    destruct (mapping !! "model_state_dict"); reflexivity.
Qed.

(** X12. In a mode other than [train], with the model constructed and a
    checkpoint file present: a mapping without the key
    [model_state_dict] makes [load_model] raise KeyError, and one whose
    parameter dictionary does not fit the model's own (other keys or
    shapes) makes it raise RuntimeError; the model is not returned. *)
Theorem load_model_bad_checkpoint (m : Run.model) (mapping : gmap string Run.ckpt_val) :
  Run.new_model cs config = Ok (Some m) ->
  mode <> "train" ->
  fs !! ckpt = Some mapping ->
  (mapping !! "model_state_dict" = None ->
   Run.load_model cs fs config = Raise KeyError)
  /\ (forall sd, mapping !! "model_state_dict" = Some (Run.CState sd) ->
        ~ Run.same_params sd (Run.state m) ->
        Run.load_model cs fs config = Raise RuntimeError).
Proof.
  intros Hnew Hne Hfs. unfold Run.load_model, Py.getattr.
  rewrite Hnew, Hname, Hmode. cbn [mbind result_bind Py.upper].
  destruct (decide _) as [_ | Heq].
  2: { exfalso. apply Heq. congruence. }
  rewrite Hckpt. cbn. rewrite Hfs, Hdev. cbn. split.
  - intros ->. reflexivity.
  - intros sd -> Hbad. cbn. destruct (decide _) as [Hok | _]; [by destruct Hbad |].
    reflexivity.
Qed.
End LoadModelErrors.

Lemma load_model_unknown_name_witness :
  Run.load_model Examples.toy_constructors Examples.ckpt_files
    (Run.Config false "ende" "train" "transformer") = Raise UnboundLocalError
  /\ Run.load_model Examples.toy_constructors Examples.ckpt_files
       (Run.Config false "ende" "test" "transformer") = Raise UnboundLocalError.
Proof.
  split.
  - refine (proj1 (load_model_unknown_name Examples.toy_constructors
              Examples.ckpt_files (Run.Config false "ende" "train" "transformer")
              "transformer" "train" "ckpt/ende.pt" (Py.VStr "cpu") _ _ _ _ _) _);
      try reflexivity. apply (bool_decide_unpack _). vm_compute. exact I.
  - refine (proj2 (proj2 (load_model_unknown_name Examples.toy_constructors
              Examples.ckpt_files (Run.Config false "ende" "test" "transformer")
              "transformer" "test" "ckpt/ende.pt" (Py.VStr "cpu") _ _ _ _ _))
              _ {["model_state_dict" := Run.CState Examples.trained]} _);
      try reflexivity; try discriminate.
    apply (bool_decide_unpack _). vm_compute. exact I.
Defined.

Lemma load_model_bad_checkpoint_witness :
  Run.load_model Examples.toy_constructors {["ckpt/ende.pt" := ∅]}
    (Run.Config false "ende" "test" "generation") = Raise KeyError.
Proof.
  refine (proj1 (load_model_bad_checkpoint Examples.toy_constructors
            {["ckpt/ende.pt" := ∅]} (Run.Config false "ende" "test" "generation")
            "generation" "test" "ckpt/ende.pt" (Py.VStr "cpu") _ _ _ _
            Examples.pretrained ∅ _ _ _) _);
    try reflexivity. discriminate.
Defined.

(** X13. [FusedModel.__init__] cannot be run on a [Config] of run.py: it
    reads [config.pad_id], which [Config] does not define (and which
    [main] would set only after [load_model]), and raises
    AttributeError. *)
Theorem init_on_Config_AttributeError {H : Type} (mods : FusedModel.modules H)
    (use_cuda : bool) (task mode model : string) :
  FusedModel.init (Run.Config use_cuda task mode model) mods = Raise AttributeError.
Proof.
  unfold FusedModel.init, Py.getattr, Run.Config. simplify_map_eq. reflexivity.
Qed.

Section Driver.
Context {Tok : Type}.
Variables (use_cuda : bool) (cs : Run.constructors).
Variables (ckpts : Run.filesystem) (splits : Data.filesystem).
Variable load_tokenizer : Py.obj -> result Tok.
Variable from_pretrained : Py.val -> result Tok.
Variable pad_token_id : Run.model -> result Py.val.
Variable Trainer_train :
  Py.obj -> Run.model -> Data.DataLoader Tok -> Data.DataLoader Tok -> result unit.
Variable Tester_test :
  Py.obj -> Run.model -> Tok -> Data.DataLoader Tok -> result unit.
Variable tokenize : Tok -> string -> result (list Z).
Variable generate : Run.model -> list Z -> result (list Z).
Variable decode : Tok -> list Z -> result string.

Lemma load_dataloader_never_ok (config : Py.obj) (split : string) :
  raises (Data.load_dataloader load_tokenizer splits config split).
Proof.
  unfold Data.load_dataloader, raises.
  destruct (Py.getattr config "pad_idx"); cbn [mbind result_bind]; [| eauto].
  destruct (Py.getattr config "eos_idx"); cbn [mbind result_bind]; [| eauto].
  destruct (Dataset_init_raises load_tokenizer splits config split) as [e ->]. eauto.
Qed.

(** X14. [train] and [test] raise for every configuration and model:
    neither gets past its first [load_dataloader], so the trainer and
    the tester are never started. *)
Theorem train_test_raise (config : Py.obj) (model : Run.model) (tokenizer : Tok) :
  (exists e, Data.load_dataloader load_tokenizer splits config "train" = Raise e
             /\ Main.train splits load_tokenizer Trainer_train config model = Raise e)
  /\ (exists e, Data.load_dataloader load_tokenizer splits config "test" = Raise e
                /\ Main.test splits load_tokenizer Tester_test config model tokenizer
                   = Raise e).
Proof.
  unfold Main.train, Main.test.
  destruct (load_dataloader_never_ok config "train") as [e1 ->].
  destruct (load_dataloader_never_ok config "test") as [e2 ->].
  split; eexists; split; reflexivity.
Qed.

(** X15. The script never completes: when one of the three selectors is
    outside its enumeration it stops with AssertionError, and otherwise
    [main] raises TypeError at once, because it constructs the [Config]
    with two arguments where [__init__] requires three. *)
Theorem script_never_completes (a : Main.args) (stdin : list string) :
  let run := Main.script use_cuda cs ckpts splits load_tokenizer from_pretrained
               pad_token_id Trainer_train Tester_test tokenize generate decode in
  let valid := Main.task a ∈ ["ende"; "deen"]
               /\ Main.mode a ∈ ["train"; "test"; "inference"]
               /\ Main.model a ∈ ["simple"; "fused"; "generation"] in
  (valid -> run a stdin = Main.Uncaught TypeError)
  /\ (~ valid -> run a stdin = Main.Uncaught AssertionError)
  /\ Main.main use_cuda cs ckpts splits load_tokenizer from_pretrained
       pad_token_id Trainer_train Tester_test tokenize generate decode a stdin
     = Main.Uncaught TypeError.
Proof.
  cbn zeta. unfold Main.script. repeat split.
  - intros (Ht & Hm & Hmo). repeat (destruct (decide _); [| tauto]). reflexivity.
  - intros Hno. repeat (destruct (decide _); [| reflexivity]). tauto.
Qed.
End Driver.

Section InferenceLoop.
Context {Tok : Type}.
Variable tokenize : Tok -> string -> result (list Z).
Variable generate : Run.model -> list Z -> result (list Z).
Variable decode : Tok -> list Z -> result string.
Variable model : Run.model.
Variable tokenizer : Tok.

(** What the loop answers to one line that is not the quit command. *)
Let respond (line : string) : result string :=
  input_ids ← tokenize tokenizer (Py.lower line);
  output_ids ← generate model input_ids;
  decode tokenizer output_ids.

Let echo (outs : list string) : list Main.printed :=
  flat_map (fun o => [Main.Prompt; Main.ModelOut o]) outs.

Lemma inference_loop_answers (pre : list string) :
  forall (tail : list string) (outs : list string) (stdout : list Main.printed),
    Forall (fun line => Py.lower line <> "quit") pre ->
    Forall2 (fun line o => respond line = Ok o) pre outs ->
    Main.inference_loop tokenize generate decode model tokenizer (pre ++ tail) stdout
    = Main.inference_loop tokenize generate decode model tokenizer tail
        (stdout ++ echo outs).
Proof.
  induction pre as [| line pre IH]; intros tail outs stdout Hnq Hresp.
  - apply Forall2_nil_inv_l in Hresp as ->. cbn. by rewrite app_nil_r.
  - apply Forall2_cons_inv_l in Hresp as (o & outs' & Ho & Hresp & ->).
    apply Forall_cons in Hnq as [Hline Hnq].
    cbn [app Main.inference_loop].
    destruct (decide _) as [Hq | _]; [by destruct Hline |].
    unfold respond in Ho. rewrite Ho. cbn [Main.of_result mbind Main.outcome_bind].
    rewrite (IH tail outs' _ Hnq Hresp). f_equal.
    unfold echo. cbn. by rewrite <- !app_assoc.
Qed.


(** X17. Without a quit command [inference] does not return: when every
    line is answered it ends with the standard input closed, and when the
    tokenizer or the model raises on a line, that exception ends it. *)
Theorem inference_without_quit (pre rest outs : list string) (line : string) (e : exn) :
  Forall (fun line => Py.lower line <> "quit") pre ->
  Forall2 (fun line o => respond line = Ok o) pre outs ->
  Main.inference tokenize generate decode model tokenizer pre = Main.EndOfInput
  /\ (Py.lower line <> "quit" -> respond line = Raise e ->
      Main.inference tokenize generate decode model tokenizer (pre ++ line :: rest)
      = Main.Uncaught e).
Proof.
  intros Hnq Hresp. unfold Main.inference. split.
  - rewrite <- (app_nil_r pre) at 1.
    by rewrite (inference_loop_answers pre [] outs _ Hnq Hresp).
  - intros Hline Herr.
    rewrite (inference_loop_answers pre (line :: rest) outs _ Hnq Hresp).
    cbn [Main.inference_loop]. destruct (decide _) as [Hq | _]; [by destruct Hline |].
    unfold respond in Herr. rewrite Herr. reflexivity.
Qed.
End InferenceLoop.


Lemma inference_without_quit_witness :
  Main.inference Examples.line_tokenize Examples.short_generate Examples.word_decode
    Examples.pretrained "tokenizer" ["Hallo"] = Main.EndOfInput
  /\ Main.inference Examples.line_tokenize Examples.short_generate Examples.word_decode
       Examples.pretrained "tokenizer" ["Hallo"; "a much longer line"; "quit"]
     = Main.Uncaught RuntimeError.
Proof.
  destruct (inference_without_quit Examples.line_tokenize Examples.short_generate
              Examples.word_decode Examples.pretrained "tokenizer"
              ["Hallo"] ["quit"] ["ok"] "a much longer line" RuntimeError)
    as [Hend Herr].
  - repeat constructor. discriminate.
  - repeat constructor.
  - split; [exact Hend |]. apply Herr; [discriminate | reflexivity].
Defined.

Lemma script_never_completes_witness :
  Main.script false Examples.toy_constructors Examples.ckpt_files Examples.data_files
    Examples.toy_tokenizer (fun _ => Ok "tokenizer") (fun _ => Ok (Py.VInt 0))
    (fun _ _ _ _ => Ok ()) (fun _ _ _ _ => Ok ())
    Examples.line_tokenize Examples.short_generate Examples.word_decode
    (Main.Args "ende" "train" "generation") [] = Main.Uncaught TypeError
  /\ Main.script false Examples.toy_constructors Examples.ckpt_files Examples.data_files
       Examples.toy_tokenizer (fun _ => Ok "tokenizer") (fun _ => Ok (Py.VInt 0))
       (fun _ _ _ _ => Ok ()) (fun _ _ _ _ => Ok ())
       Examples.line_tokenize Examples.short_generate Examples.word_decode
       (Main.Args "enfr" "train" "generation") [] = Main.Uncaught AssertionError.
Proof.
  split.
  - refine (proj1 (script_never_completes false Examples.toy_constructors
              Examples.ckpt_files Examples.data_files Examples.toy_tokenizer
              (fun _ => Ok "tokenizer") (fun _ => Ok (Py.VInt 0))
              (fun _ _ _ _ => Ok ()) (fun _ _ _ _ => Ok ())
              Examples.line_tokenize Examples.short_generate Examples.word_decode
              (Main.Args "ende" "train" "generation") []) _).
    cbn. repeat split; apply (bool_decide_unpack _); vm_compute; exact I.
  - refine (proj1 (proj2 (script_never_completes false Examples.toy_constructors
              Examples.ckpt_files Examples.data_files Examples.toy_tokenizer
              (fun _ => Ok "tokenizer") (fun _ => Ok (Py.VInt 0))
              (fun _ _ _ _ => Ok ()) (fun _ _ _ _ => Ok ())
              Examples.line_tokenize Examples.short_generate Examples.word_decode
              (Main.Args "enfr" "train" "generation") [])) _).
    cbn. intros [Htask _]. revert Htask.
    apply (bool_decide_unpack _). vm_compute. exact I.
Defined.

(** ** model/fused.py: masks *)

Section MaskEntries.
Context {H : Type} `{Hidden H}.
Variable self : FusedModel.t H.

(** X18. For ids of shape (B, L), [pad_mask] returns a boolean tensor of
    shape (B, 1, 1, L) whose entry at (b, 0, 0, j) is true exactly when
    [x[b, j]] is not the pad id; on a 0-d tensor it raises IndexError. *)
Theorem pad_mask_entry (x : tensor Z) (B L : nat) :
  (shape x = [B; L] ->
   exists pm, FusedModel.pad_mask self x = Ok pm
     /\ shape pm = [B; 1%nat; 1%nat; L]
     /\ forall b j, at_ pm [b; 0; 0; j]%nat = true
                    <-> at_ x [b; j] <> FusedModel.pad_id self)
  /\ (shape x = [] -> FusedModel.pad_mask self x = Raise IndexError).
Proof.
  split; intros Hx.
  - destruct (pad_mask_ok self x B L Hx) as (pm & Hpm & Hsh & Hat).
    exists pm. split; [exact Hpm |]. split; [exact Hsh |].
    intros b j. by rewrite Hat, negb_true_iff, Z.eqb_neq.
  - unfold FusedModel.pad_mask, unsqueeze, ne_scalar, tmap. cbn. rewrite Hx.
    reflexivity.
Qed.

(** The causal mask, entry by entry, as a boolean equation. *)
Lemma dec_mask_at (x : tensor Z) (B L : nat) :
  shape x = [B; L] ->
  exists m, FusedModel.dec_mask self x = Ok m
    /\ shape m = [B; 1%nat; L; L]
    /\ forall b i j, (b < B)%nat -> (i < L)%nat -> (j < L)%nat ->
         at_ m [b; 0%nat; i; j]
         = (j <=? i)%nat && negb (at_ x [b; j] =? FusedModel.pad_id self).
Proof.
  intros Hx.
  destruct (pad_mask_ok self x B L Hx) as (pm & Hpm & Hsh & Hat).
  unfold FusedModel.dec_mask, size_last. rewrite Hx. cbn.
  rewrite Hpm. cbn. unfold band, zip_bcast. rewrite Hsh. cbn [shape eq_scalar tmap].
  rewrite broadcast_shapes_mask.
  eexists. split; [reflexivity |]. split; [reflexivity |].
  intros b i j Hb Hi Hj. cbn. rewrite Hat.
  assert (Hj' : (if (L =? 1)%nat then 0%nat else j) = j).
  { destruct (Nat.eqb_spec L 1); lia. }
  assert (Hi' : (if (L =? 1)%nat then 0%nat else i) = i).
  { destruct (Nat.eqb_spec L 1); lia. }
  assert (Hb' : (if (B =? 1)%nat then 0%nat else b) = b).
  { destruct (Nat.eqb_spec B 1); lia. }
  rewrite Hj', Hi', Hb'. cbn. rewrite andb_comm. f_equal.
  destruct (Z.ltb_spec (Z.of_nat j - Z.of_nat i) 1), (Nat.leb_spec j i);
    try reflexivity; lia.
Qed.

(** The shifted labels, entry by entry. *)
Lemma shift_right_at (labels : tensor Z) (B n : nat) :
  shape labels = [B; S n] ->
  exists shifted, FusedModel.shift_right self labels = Ok shifted
    /\ shape shifted = [B; S n]
    /\ forall b, at_ shifted [b; 0%nat] = FusedModel.pad_id self.
Proof.
  intros Hl.
  unfold FusedModel.shift_right, cols_init, set_cols_tail, set_col0.
  rewrite Hl. cbn. rewrite Nat.sub_0_r.
  destruct (decide _) as [_ | Hno].
  2: { exfalso. apply Hno. split; [apply broadcast_shapes_refl2 | cbn; lia]. }
  cbn. eexists. split; [reflexivity |]. split; reflexivity.
Qed.

(** X19. In the training forward pass the decoder mask is computed from
    the shifted labels, whose first position holds the pad id: key
    position 0 is masked for every query, and the first query position
    can attend to no key at all. *)
Theorem dec_mask_of_shifted_masks_first_key (labels : tensor Z) (B n : nat) :
  shape labels = [B; S n] ->
  exists shifted m,
    FusedModel.shift_right self labels = Ok shifted
    /\ FusedModel.dec_mask self shifted = Ok m
    /\ (forall b i, (b < B)%nat -> (i < S n)%nat -> at_ m [b; 0; i; 0]%nat = false)
    /\ (forall b j, (b < B)%nat -> (j < S n)%nat -> at_ m [b; 0; 0; j]%nat = false).
Proof.
  intros Hl.
  destruct (shift_right_at labels B n Hl) as (shifted & Hs & Hshape & Hpad).
  destruct (dec_mask_at shifted B (S n) Hshape) as (m & Hm & _ & Hat).
  exists shifted, m. split; [exact Hs |]. split; [exact Hm |]. split.
  - intros b i Hb Hi. rewrite Hat by lia. rewrite Hpad, Z.eqb_refl.
    apply andb_false_r.
  - intros b j Hb Hj. rewrite Hat by lia.
    destruct j as [| j]; [| reflexivity].
    rewrite Hpad, Z.eqb_refl. apply andb_false_r.
Qed.

(** X20. When the pad id is 0, the causal mask that [genreate] computes
    from its zero-initialised buffer is false everywhere: the decoder
    would be given no position to attend to. *)
Theorem dec_mask_of_zero_buffer (B M : nat) :
  FusedModel.pad_id self = 0 ->
  exists m,
    FusedModel.dec_mask self (zeros [B; M]) = Ok m
    /\ shape m = [B; 1%nat; M; M]
    /\ forall b i j, (b < B)%nat -> (i < M)%nat -> (j < M)%nat ->
         at_ m [b; 0%nat; i; j] = false.
Proof.
  intros Hpad.
  destruct (dec_mask_at (zeros [B; M]) B M eq_refl) as (m & Hm & Hshape & Hat).
  exists m. split; [exact Hm |]. split; [exact Hshape |].
  intros b i j Hb Hi Hj. rewrite Hat by lia. rewrite Hpad. cbn.
  apply andb_false_r.
Qed.

(** X21. [shift_right] raises IndexError on labels without a second
    dimension, and on labels whose sequences are empty (the assignment of
    the pad id to column 0 has no column to write). *)
Theorem shift_right_IndexError (labels : tensor Z) :
  ((length (shape labels) < 2)%nat ->
   FusedModel.shift_right self labels = Raise IndexError)
  /\ (forall B, shape labels = [B; 0%nat] ->
        FusedModel.shift_right self labels = Raise IndexError).
Proof.
  split.
  - intros Hrank. unfold FusedModel.shift_right, cols_init.
    destruct (shape labels) as [| b [| l rest]]; cbn in *; [reflexivity .. | lia].
  - intros B Hl. unfold FusedModel.shift_right, cols_init, set_cols_tail, set_col0.
    rewrite Hl. cbn.
    destruct (decide _) as [_ | Hno]; [reflexivity |].
    exfalso. apply Hno. split; [by rewrite Nat.eqb_refl | lia].
Qed.
End MaskEntries.

Lemma pad_mask_entry_witness :
  exists pm, FusedModel.pad_mask Examples.probe_model
               (of_rows 0 6 [[101; 45; 67; 102; 0; 0]]) = Ok pm
    /\ shape pm = [1; 1; 1; 6]%nat
    /\ (at_ pm [0; 0; 0; 3]%nat = true
        <-> at_ (of_rows 0 6 [[101; 45; 67; 102; 0; 0]]) [0; 3]%nat
            <> FusedModel.pad_id Examples.probe_model).
Proof.
  destruct (proj1 (pad_mask_entry Examples.probe_model
                     (of_rows 0 6 [[101; 45; 67; 102; 0; 0]]) 1%nat 6%nat) eq_refl)
    as (pm & Hpm & Hs & Hat).
  exists pm. split; [exact Hpm |]. split; [exact Hs | apply Hat].
Defined.

Lemma dec_mask_of_shifted_masks_first_key_witness :
  exists shifted m,
    FusedModel.shift_right Examples.probe_model Examples.trg_ids = Ok shifted
    /\ FusedModel.dec_mask Examples.probe_model shifted = Ok m
    /\ at_ m [0; 0; 2; 0]%nat = false
    /\ at_ m [0; 0; 0; 0]%nat = false.
Proof.
  destruct (dec_mask_of_shifted_masks_first_key Examples.probe_model Examples.trg_ids
              1%nat 2%nat eq_refl) as (shifted & m & Hs & Hm & Hkey & Hrow).
  exists shifted, m. split; [exact Hs |]. split; [exact Hm |].
  split; [apply Hkey | apply Hrow]; lia.
Defined.

Lemma dec_mask_of_zero_buffer_witness :
  exists m,
    FusedModel.dec_mask Examples.probe_model (zeros [1; 3]%nat) = Ok m
    /\ at_ m [0; 0; 2; 1]%nat = false.
Proof.
  destruct (dec_mask_of_zero_buffer Examples.probe_model 1 3 eq_refl)
    as (m & Hm & _ & Hat).
  exists m. split; [exact Hm |]. apply Hat; lia.
Defined.

Lemma shift_right_IndexError_witness :
  FusedModel.shift_right Examples.probe_model (of_rows 0 0 [[]; []]) = Raise IndexError
  /\ FusedModel.shift_right Examples.probe_model (full [3%nat] 7) = Raise IndexError.
Proof.
  split.
  - apply (proj2 (shift_right_IndexError Examples.probe_model (of_rows 0 0 [[]; []]))
             2%nat eq_refl).
  - apply (proj1 (shift_right_IndexError Examples.probe_model (full [3%nat] 7))).
    cbn. lia.
Defined.

(** ** model/fused.py: layers, generation and construction *)

Section GenerationMore.
Context {H : Type} `{Hidden H}.
Variable self : FusedModel.t H.

Lemma argmax_from_keeps (l : list Qc) :
  forall (best : nat) (bv : Qc) (i : nat),
    Forall (fun v => (v <= bv)%Qc) l -> argmax_from best bv i l = best.
Proof.
  induction l as [| v l IH]; intros best bv i Hle; [reflexivity |].
  apply Forall_cons in Hle as [Hv Hl]. cbn [argmax_from].
  destruct (Qccompare bv v) eqn:Hc; try (apply IH; exact Hl).
  exfalso. apply (Qcle_not_lt _ _ Hv). exact Hc.
Qed.

Lemma tsum_zero (t : tensor Z) :
  Forall (fun idx => at_ t idx = 0) (indices (shape t)) -> tsum t = 0.
Proof.
  unfold tsum, elements. induction 1 as [| idx l Hidx _ IH]; cbn; [reflexivity |].
  rewrite Hidx. exact IH.
Qed.

(** X23. The early stop of the generation loop: when at every position
    of the logits no vocabulary entry exceeds entry 0, every arg-max is 0,
    their sum is 0, and the update stops the loop without touching the
    buffer, whatever the step and the buffer are. *)
Theorem genreate_update_breaks (preds : tensor Z) (i : nat) (dec_out : H)
    (sh : list nat) (V : nat) :
  shape (FusedModel.fc_out self dec_out) = sh ++ [S V] ->
  (forall idx k, idx ∈ indices sh -> (k < S V)%nat ->
     (at_ (FusedModel.fc_out self dec_out) (idx ++ [k])
      <= at_ (FusedModel.fc_out self dec_out) (idx ++ [0%nat]))%Qc) ->
  FusedModel.genreate_update self preds i dec_out = Ok FusedModel.Break.
Proof.
  intros Hshape Hmax. unfold FusedModel.genreate_update, argmax_last.
  rewrite Hshape, reverse_snoc. cbn [Nat.eqb mbind result_bind].
  rewrite tsum_zero; [reflexivity |].
  cbn [shape at_]. rewrite reverse_involutive.
  apply Forall_forall. intros idx Hidx.
  rewrite fmap_seq_S. cbn [argmax_list].
  rewrite argmax_from_keeps; [reflexivity |].
  apply Forall_fmap, Forall_forall. intros k Hk. cbv [compose].
  apply elem_of_seq in Hk. apply Hmax; [exact Hidx | lia].
Qed.
End GenerationMore.

Lemma genreate_update_breaks_witness :
  FusedModel.genreate_update (Examples.toy 1 3 2 Examples.rising None)
    (zeros [1; 3]%nat) 1 hzero = Ok FusedModel.Break.
Proof.
  apply (genreate_update_breaks (Examples.toy 1 3 2 Examples.rising None)
           (zeros [1; 3]%nat) 1 hzero [1; 3]%nat 1%nat).
  - reflexivity.
  - intros idx k _ _. cbn. apply Qcle_refl.
Defined.

Lemma genreate_short_witness :
  FusedModel.genreate (Examples.toy 2 1 2 Examples.rising None)
    (of_rows 0 2 [[8; 9]; [7; 0]]) (of_rows 0 2 [[1; 1]; [1; 0]])
  = Ok [[0]; [0]].
Proof.
  apply (genreate_short (Examples.toy 2 1 2 Examples.rising None) _ _ 2%nat 2%nat).
  - reflexivity.
  - cbn. lia.
Defined.

Lemma genreate_update_never_writes_witness :
  FusedModel.genreate_update (Examples.toy 2 3 2 Examples.rising None)
    (zeros [2; 3]%nat) 1 Examples.rising
  <> Ok (FusedModel.Continue (zeros [2; 3]%nat)).
Proof.
  apply (genreate_update_never_writes (Examples.toy 2 3 2 Examples.rising None)
           (zeros [2; 3]%nat) 1 Examples.rising 2%nat 3%nat 2%nat).
  - reflexivity.
  - reflexivity.
  - lia.
Defined.

Lemma loss_shapes_differ_witness :
  (exists input target,
     FusedModel.loss_input (Examples.toy 1 3 2 Examples.rising (Some 2%nat))
       (FusedModel.fc_out (Examples.toy 1 3 2 Examples.rising (Some 2%nat))
          Examples.rising) = Ok input
     /\ FusedModel.loss_target Examples.trg_ids = Ok target
     /\ shape target = [2%nat]
     /\ CrossEntropyLoss.call
          (FusedModel.criterion (Examples.toy 1 3 2 Examples.rising (Some 2%nat)))
          input target = Raise ValueError)
  /\ FusedModel.loss_target (of_rows 0 3 [[5; 6; 7]; [1; 2; 3]]) = Raise RuntimeError.
Proof.
  split.
  - apply (loss_shapes_differ (Examples.toy 1 3 2 Examples.rising (Some 2%nat))
             (FusedModel.fc_out (Examples.toy 1 3 2 Examples.rising (Some 2%nat))
                Examples.rising)
             Examples.trg_ids 1%nat 3%nat 2%nat eq_refl); try lia; try reflexivity.
  - apply (loss_shapes_differ (Examples.toy 2 3 2 Examples.rising (Some 2%nat))
             (FusedModel.fc_out (Examples.toy 2 3 2 Examples.rising (Some 2%nat))
                Examples.rising)
             (of_rows 0 3 [[5; 6; 7]; [1; 2; 3]]) 2%nat 3%nat 2%nat eq_refl);
      try lia; try reflexivity.
Defined.

Section Construction.
Context {H : Type} `{Hidden H}.

(** X26. A model that [__init__] constructs takes its pad id from
    [config.pad_id] and its maximum length from [config.max_len], its
    criterion ignores exactly that pad id and smooths the labels by 0.1,
    and it has no attribute [vocab_size], although [config.vocab_size]
    was read. *)
Theorem init_invariants (config : Py.obj) (mods : FusedModel.modules H)
    (m : FusedModel.t H) :
  FusedModel.init config mods = Ok m ->
  config !! "pad_id" = Some (Py.VInt (FusedModel.pad_id m))
  /\ (exists len, config !! "max_len" = Some (Py.VInt len)
                  /\ FusedModel.max_len m = Z.to_nat len)
  /\ CrossEntropyLoss.ignore_index (FusedModel.criterion m) = FusedModel.pad_id m
  /\ CrossEntropyLoss.label_smoothing (FusedModel.criterion m) = Q2Qc 0.1%Q
  /\ is_Some (config !! "vocab_size")
  /\ FusedModel.vocab_size m = None.
Proof.
  unfold FusedModel.init, Py.getattr. intros Hinit.
  destruct (config !! "device"); cbn in Hinit; [| discriminate].
  destruct (config !! "pad_id") as [[pad | |] |]; cbn in Hinit; try discriminate.
  destruct (config !! "max_len") as [[len | |] |]; cbn in Hinit; try discriminate.
  destruct (config !! "bert_mname"); cbn in Hinit; [| discriminate].
  destruct (config !! "hidden_dim"); cbn in Hinit; [| discriminate].
  destruct (config !! "dropout_ratio"); cbn in Hinit; [| discriminate].
  destruct (config !! "n_layers"); cbn in Hinit; [| discriminate].
  destruct (config !! "vocab_size"); cbn in Hinit; [| discriminate].
  injection Hinit as <-. cbn. repeat split; eauto.
Qed.

(** X27. The forward pass of a freshly constructed model never returns:
    whatever the batch, it raises (at the latest AttributeError, where it
    reads [self.vocab_size] to reshape the logits). *)
Theorem forward_after_init_raises (config : Py.obj) (mods : FusedModel.modules H)
    (m : FusedModel.t H) (input_ids attention_mask labels : tensor Z) :
  FusedModel.init config mods = Ok m ->
  raises (FusedModel.forward m input_ids attention_mask labels).
Proof.
  intros Hinit. apply forward_without_vocab_size.
  exact (init_no_vocab_size config mods m Hinit).
Qed.
End Construction.

Lemma init_invariants_witness :
  exists m,
    FusedModel.init Examples.toy_config (Examples.toy_modules 1 3 2) = Ok m
    /\ CrossEntropyLoss.ignore_index (FusedModel.criterion m) = FusedModel.pad_id m
    /\ FusedModel.vocab_size m = None.
Proof.
  eexists. split; [reflexivity |].
  pose proof (init_invariants Examples.toy_config (Examples.toy_modules 1 3 2) _ eq_refl)
    as (_ & _ & Hig & _ & _ & Hv).
  split; [exact Hig | exact Hv].
Defined.

Lemma forward_after_init_raises_witness :
  exists m,
    FusedModel.init Examples.toy_config (Examples.toy_modules 1 3 2) = Ok m
    /\ raises (FusedModel.forward m Examples.src_ids Examples.src_ids Examples.trg_ids).
Proof.
  eexists. split; [reflexivity |].
  apply (forward_after_init_raises Examples.toy_config (Examples.toy_modules 1 3 2)).
  reflexivity.
Defined.
